(** * mention-python: request building of the Mention API client

    A shallow embedding of [mention/base.py]: one module per endpoint class,
    with [__init__], [params], [data], [url] and [query] translated from the
    Python source.  Python values are a small tagged union, dictionaries are
    insertion-ordered association lists (Python 3.7 and later), exceptions
    are an error monad. *)

From Stdlib Require Import ZArith List String Ascii Bool Lia DecimalString.
Import ListNotations.
Open Scope string_scope.
Open Scope Z_scope.

(** ** Exceptions *)

Inductive exn : Type :=
| ValueError
| TypeError
| KeyError
| ValidationError
| HTTPError
| ConnectionError.

Inductive result (A : Type) : Type :=
| Ok (a : A)
| Raise (e : exn).

Arguments Ok {A} a.
Arguments Raise {A} e.

Definition bind {A B : Type} (r : result A) (k : A -> result B) : result B :=
  match r with
  | Ok a => k a
  | Raise e => Raise e
  end.

Notation "x <- r ;; k" := (bind r (fun x => k))
  (at level 61, r at next level, right associativity).

(** ** Python values *)

(** The scalar values that reach [params] and [url]. *)
Inductive PyVal : Type :=
| VNone
| VBool (b : bool)
| VInt (z : Z)
| VStr (s : string).

(** Truth value of [if x:]. *)
Definition truthy (v : PyVal) : bool :=
  match v with
  | VNone => false
  | VBool b => b
  | VInt z => negb (z =? 0)
  | VStr s => negb (s =? "")%string
  end.

(** [value == ''] : only the empty string is equal to [''] . *)
Definition is_empty_str (v : PyVal) : bool :=
  match v with
  | VStr s => (s =? "")%string
  | _ => false
  end.

(** [x == "lit"] for a string literal. *)
Definition eq_str (v : PyVal) (lit : string) : bool :=
  match v with
  | VStr s => (s =? lit)%string
  | _ => false
  end.

Definition Z_to_string (z : Z) : string :=
  NilEmpty.string_of_int (Z.to_int z).

(** [str(x)], which is what [str.format] inserts for a bare field. *)
Definition py_str (v : PyVal) : string :=
  match v with
  | VNone => "None"
  | VBool true => "True"
  | VBool false => "False"
  | VInt z => Z_to_string z
  | VStr s => s
  end.

(** *** [int(x)] *)

Definition is_space (c : ascii) : bool :=
  let n := nat_of_ascii c in
  ((9 <=? n)%nat && (n <=? 13)%nat) || ((28 <=? n)%nat && (n <=? 32)%nat).

Definition is_digit (c : ascii) : bool :=
  let n := nat_of_ascii c in
  ((48 <=? n)%nat && (n <=? 57)%nat).

Definition digit_val (c : ascii) : Z :=
  Z.of_nat (nat_of_ascii c) - 48.

Fixpoint lstrip (s : string) : string :=
  match s with
  | EmptyString => EmptyString
  | String c s' => if is_space c then lstrip s' else s
  end.

Fixpoint string_rev (s : string) : string :=
  match s with
  | EmptyString => EmptyString
  | String c s' => string_rev s' ++ String c EmptyString
  end.

Definition strip (s : string) : string :=
  string_rev (lstrip (string_rev (lstrip s))).

(** Decimal digits, single underscores allowed between two digits. *)
Fixpoint parse_digits (acc : Z) (after_digit : bool) (s : string) : option Z :=
  match s with
  | EmptyString => if after_digit then Some acc else None
  | String c s' =>
      if is_digit c then parse_digits (10 * acc + digit_val c) true s'
      else if (c =? "_")%char && after_digit then parse_digits acc false s'
      else None
  end.

Definition int_of_string (s : string) : option Z :=
  match strip s with
  | String "-" s' => option_map Z.opp (parse_digits 0 false s')
  | String "+" s' => parse_digits 0 false s'
  | s' => parse_digits 0 false s'
  end.

Definition py_int (v : PyVal) : result Z :=
  match v with
  | VNone => Raise TypeError
  | VBool b => Ok (if b then 1 else 0)
  | VInt z => Ok z
  | VStr s =>
      match int_of_string s with
      | Some z => Ok z
      | None => Raise ValueError
      end
  end.

(** ** Dictionaries *)

(** A [dict] with string keys: the items in insertion order. *)
Definition dict (V : Type) : Type := list (string * V).

Definition keys {V : Type} (d : dict V) : list string := map fst d.

Fixpoint dict_get {V : Type} (k : string) (d : dict V) : option V :=
  match d with
  | [] => None
  | (k', v) :: d' => if (k' =? k)%string then Some v else dict_get k d'
  end.

Definition dict_mem {V : Type} (k : string) (d : dict V) : bool :=
  match dict_get k d with
  | Some _ => true
  | None => false
  end.

(** [d[k] = v] : an existing key keeps its position, a new one goes last. *)
Fixpoint dict_set {V : Type} (k : string) (v : V) (d : dict V) : dict V :=
  match d with
  | [] => [(k, v)]
  | (k', v') :: d' =>
      if (k' =? k)%string then (k', v) :: d' else (k', v') :: dict_set k v d'
  end.

Fixpoint dict_remove {V : Type} (k : string) (d : dict V) : dict V :=
  match d with
  | [] => []
  | (k', v') :: d' =>
      if (k' =? k)%string then d' else (k', v') :: dict_remove k d'
  end.

(** [del d[k]] raises [KeyError] on a missing key. *)
Definition dict_del {V : Type} (k : string) (d : dict V) : result (dict V) :=
  if dict_mem k d then Ok (dict_remove k d) else Raise KeyError.

(** [d[k]] *)
Definition dict_item {V : Type} (k : string) (d : dict V) : result V :=
  match dict_get k d with
  | Some v => Ok v
  | None => Raise KeyError
  end.

(** The loop
[[
    for key, value in list(params.items()):
        if value == '':
            del params[key]
]]
    over a snapshot [items] of the dictionary; [is_empty] is the test
    [value == '']. *)
Fixpoint del_empty_loop {V : Type} (is_empty : V -> bool)
    (items : dict V) (params : dict V) : result (dict V) :=
  match items with
  | [] => Ok params
  | (key, value) :: items' =>
      if is_empty value then
        params' <- dict_del key params ;;
        del_empty_loop is_empty items' params'
      else del_empty_loop is_empty items' params
  end.

Definition del_empty (params : dict PyVal) : result (dict PyVal) :=
  del_empty_loop is_empty_str params params.

(** [{x: d[x] for x in d if x not in keys}] *)
Definition without_keys {V : Type} (d : dict V) (ks : list string) : dict V :=
  filter (fun kv => negb (existsb (String.eqb (fst kv)) ks)) d.

(** ** [str.format] with keyword arguments *)

(** Replacement fields are bare names, as in every template of the module;
    [{{] and [}}] are the escapes.  A stray brace is a [ValueError], a name
    missing from the keyword arguments a [KeyError].  [field] is [Some acc]
    while a field name is being read. *)
Fixpoint format_go (kw : dict PyVal) (field : option string) (s : string)
  : result string :=
  match field with
  | None =>
      match s with
      | EmptyString => Ok EmptyString
      | String c r =>
          if (c =? "{")%char then
            match r with
            | String c' r' =>
                if (c' =? "{")%char
                then out <- format_go kw None r' ;; Ok (String "{" out)
                else format_go kw (Some EmptyString) r
            | EmptyString => format_go kw (Some EmptyString) r
            end
          else if (c =? "}")%char then
            match r with
            | String c' r' =>
                if (c' =? "}")%char
                then out <- format_go kw None r' ;; Ok (String "}" out)
                else Raise ValueError
            | EmptyString => Raise ValueError
            end
          else out <- format_go kw None r ;; Ok (String c out)
      end
  | Some acc =>
      match s with
      | EmptyString => Raise ValueError
      | String c r =>
          if (c =? "}")%char then
            v <- dict_item acc kw ;;
            out <- format_go kw None r ;;
            Ok (py_str v ++ out)
          else if (c =? "{")%char then Raise ValueError
          else format_go kw (Some (acc ++ String c EmptyString)) r
      end
  end.

Definition format (template : string) (kw : dict PyVal) : result string :=
  format_go kw None template.

(** ** Values of a request body *)

(** The bodies of the create, update and curate calls also hold lists and
    nested dictionaries. *)
Unset Elimination Schemes.
Inductive Json : Type :=
| JAtom (v : PyVal)
| JList (l : list Json)
| JDict (d : list (string * Json)).
Set Elimination Schemes.

Definition jstr (s : string) : Json := JAtom (VStr s).

Definition jtruthy (j : Json) : bool :=
  match j with
  | JAtom v => truthy v
  | JList [] => false
  | JList (_ :: _) => true
  | JDict [] => false
  | JDict (_ :: _) => true
  end.

Definition jis_empty_str (j : Json) : bool :=
  match j with
  | JAtom v => is_empty_str v
  | _ => false
  end.

Definition jdel_empty (data : dict Json) : result (dict Json) :=
  del_empty_loop jis_empty_str data data.

(** Optional constructor arguments as attribute values. *)
Definition of_opt_str (o : option string) : PyVal :=
  match o with
  | Some s => VStr s
  | None => VNone
  end.

Definition of_opt_list (o : option (list string)) : Json :=
  match o with
  | Some l => JList (map jstr l)
  | None => JAtom VNone
  end.

(** ** The collaborators: [requests] and [json] *)

Record Response : Type := {
  status_code : Z;
  text : string
}.

(** [Response.raise_for_status] of [requests]: 4xx and 5xx raise. *)
Definition raise_for_status (r : Response) : result unit :=
  if (400 <=? status_code r) && (status_code r <? 600)
  then Raise HTTPError
  else Ok tt.

Inductive Method : Type := GET | POST | PUT.

(** What the module takes from its libraries: [json.dumps], a session
    request with bearer token, url and optional body, and [Response.json]
    with values in [J]. *)
Record Lib (J : Type) : Type := {
  json_dumps : dict Json -> string;
  session_request : Method -> string -> string -> option string -> result Response;
  response_json : Response -> result J
}.

Arguments json_dumps {J} _ _.
Arguments session_request {J} _ _ _ _ _.
Arguments response_json {J} _ _.

(** [[
    try:
        response.raise_for_status()
    except HTTPError:
        pass
]] *)
Definition try_raise_for_status (response : Response) : result unit :=
  match raise_for_status response with
  | Raise HTTPError => Ok tt
  | r => r
  end.

(** ** [mention.utils] *)

Module utils.

(** Modelled from the spec: [mention/utils.py] is not among the sources.
    A boolean is rendered as the literal token true or false. *)
Definition transform_boolean (b : bool) : string :=
  if b then "true" else "false".

(** Modelled from the spec: [mention/utils.py] is not among the sources.
    A tone is checked against the vocabulary negative, neutral, positive;
    a member passes through unchanged, anything else is a
    [ValidationError]. *)
Definition transform_tone (tone : string) : result string :=
  if ((tone =? "negative") || (tone =? "neutral") || (tone =? "positive"))%string
  then Ok tone
  else Raise ValidationError.

Definition two_digits (a b : ascii) : option Z :=
  if is_digit a && is_digit b
  then Some (10 * digit_val a + digit_val b)
  else None.

Definition is_leap (y : Z) : bool :=
  ((y mod 4 =? 0) && negb (y mod 100 =? 0)) || (y mod 400 =? 0).

Definition days_in_month (y m : Z) : Z :=
  if m =? 2 then (if is_leap y then 29 else 28)
  else if (m =? 4) || (m =? 6) || (m =? 9) || (m =? 11) then 30
  else 31.

(** The fields of a string of the form yyyy-MM-dd HH:mm. *)
Definition parse_date (s : string) : option (Z * Z * Z * Z * Z) :=
  match s with
  | String y1 (String y2 (String y3 (String y4 (String "-"
    (String m1 (String m2 (String "-"
    (String d1 (String d2 (String " "
    (String h1 (String h2 (String ":"
    (String n1 (String n2 EmptyString))))))))))))))) =>
      match two_digits y1 y2, two_digits y3 y4, two_digits m1 m2,
            two_digits d1 d2, two_digits h1 h2, two_digits n1 n2 with
      | Some yh, Some yl, Some m, Some d, Some h, Some n =>
          let y := 100 * yh + yl in
          if (1 <=? y) && (1 <=? m) && (m <=? 12) && (1 <=? d)
             && (d <=? days_in_month y m) && (h <=? 23) && (n <=? 59)
          then Some (y, m, d, h, n)
          else None
      | _, _, _, _, _, _ => None
      end
  | _ => None
  end.

(** Modelled from the spec: [mention/utils.py] is not among the sources.
    A string of the form yyyy-MM-dd HH:mm becomes an ISO-8601 timestamp
    with seconds, a fractional component and an offset; the date and time
    components are kept.  The spec fixes neither the fraction nor the
    offset: zero is taken for both.  Any other string is a
    [ValidationError]. *)
Definition transform_date (date : string) : result string :=
  match parse_date date with
  | Some _ =>
      Ok (substring 0 10 date ++ "T" ++ substring 11 5 date
            ++ ":00" ++ ".000000" ++ "+00:00")
  | None => Raise ValidationError
  end.

End utils.


(** ** Pieces shared by the endpoint classes *)

(** [utils.transform_date(x) if x is not None else x], and the same for
    booleans and tones. *)
Definition opt_date (o : option string) : result PyVal :=
  match o with
  | Some d => s <- utils.transform_date d ;; Ok (VStr s)
  | None => Ok VNone
  end.

Definition opt_boolean (o : option bool) : PyVal :=
  match o with
  | Some b => VStr (utils.transform_boolean b)
  | None => VNone
  end.

Definition opt_tone (o : option string) : result PyVal :=
  match o with
  | Some x => s <- utils.transform_tone x ;; Ok (VStr s)
  | None => Ok VNone
  end.

(** [x if c else ''] *)
Definition or_empty (c x : PyVal) : PyVal :=
  if truthy c then x else VStr "".

(** [keys] in the two [url] properties that add query fields. *)
Definition path_keys : list string := ["access_token"; "account_id"; "alert_id"].

(** The loop of [url] that appends one replacement field per parameter. *)
Definition add_fields (end_url : string) (parameters : dict PyVal) : string :=
  fold_left
    (fun end_url kv =>
       if negb (is_empty_str (snd kv))
       then end_url ++ "&" ++ fst kv ++ "={" ++ fst kv ++ "}"
       else end_url)
    parameters end_url.

(** ** [Mention] *)

Definition _base_url : string := "https://api.mention.net/api".

Module AppDataAPI.

Record t : Type := { access_token : string }.

Definition __init__ (access_token : string) : t :=
  {| access_token := access_token |}.

Definition url (self : t) : string :=
  let end_url := "/app/data" in
  _base_url ++ end_url.

Definition query {J : Type} (lib : Lib J) (self : t) : result J :=
  response <- session_request lib GET (access_token self) (url self) None ;;
  _ <- try_raise_for_status response ;;
  data <- response_json lib response ;;
  Ok data.

End AppDataAPI.

Module FetchAnAlertAPI.

Record t : Type := {
  access_token : string;
  account_id : string;
  alert_id : string
}.

Definition __init__ (access_token account_id alert_id : string) : t :=
  {| access_token := access_token;
     account_id := account_id;
     alert_id := alert_id |}.

Definition params (self : t) : dict PyVal :=
  let params := [] in
  let params := dict_set "access_token" (VStr (access_token self)) params in
  let params := dict_set "account_id" (VStr (account_id self)) params in
  let params := dict_set "alert_id" (VStr (alert_id self)) params in
  params.

Definition url (self : t) : result string :=
  end_url <- format "/accounts/{account_id}/alerts/{alert_id}" (params self) ;;
  Ok (_base_url ++ end_url).

Definition query {J : Type} (lib : Lib J) (self : t) : result J :=
  u <- url self ;;
  response <- session_request lib GET (access_token self) u None ;;
  _ <- try_raise_for_status response ;;
  data <- response_json lib response ;;
  Ok data.

End FetchAnAlertAPI.

Module CreateAnAlertAPI.

Record t : Type := {
  access_token : string;
  account_id : string;
  name : string;
  queryd : dict Json;
  languages : list string;
  countries : Json;
  sources : Json;
  blocked_sites : Json;
  noise_detection : PyVal;
  reviews_pages : Json
}.

Definition __init__ (access_token account_id name : string)
    (queryd : dict Json) (languages : list string)
    (countries sources blocked_sites : option (list string))
    (noise_detection : option bool)
    (reviews_pages : option (list string)) : t :=
  {| access_token := access_token;
     account_id := account_id;
     name := name;
     queryd := queryd;
     languages := languages;
     countries := of_opt_list countries;
     sources := of_opt_list sources;
     blocked_sites := of_opt_list blocked_sites;
     noise_detection :=
       match noise_detection with
       | Some b => VStr (utils.transform_boolean b)
       | None => VNone
       end;
     reviews_pages := of_opt_list reviews_pages |}.

Definition params (self : t) : dict PyVal :=
  let params := [] in
  let params := dict_set "access_token" (VStr (access_token self)) params in
  let params := dict_set "account_id" (VStr (account_id self)) params in
  params.

(** The dictionary that [data] hands to [json.dumps]. *)
Definition data_dict (self : t) : result (dict Json) :=
  let data := [] in
  let data := dict_set "name" (jstr (name self)) data in
  let data := dict_set "query" (JDict (queryd self)) data in
  let data := dict_set "languages" (JList (map jstr (languages self))) data in
  let data := dict_set "countries"
    (if jtruthy (countries self) then countries self else jstr "") data in
  let data := dict_set "sources"
    (if jtruthy (sources self) then sources self else jstr "") data in
  let data := dict_set "blocked_sites"
    (if jtruthy (blocked_sites self) then blocked_sites self else jstr "") data in
  let data := dict_set "noise_detection"
    (if truthy (noise_detection self) then JAtom (noise_detection self)
     else jstr "") data in
  let data := dict_set "reviews_pages"
    (if jtruthy (reviews_pages self) then reviews_pages self else jstr "") data in
  jdel_empty data.

Definition data {J : Type} (lib : Lib J) (self : t) : result string :=
  d <- data_dict self ;;
  Ok (json_dumps lib d).

Definition url (self : t) : result string :=
  end_url <- format "/accounts/{account_id}/alerts/" (params self) ;;
  Ok (_base_url ++ end_url).

(** This one returns [response.text], not the decoded body. *)
Definition query {J : Type} (lib : Lib J) (self : t) : result string :=
  u <- url self ;;
  body <- data lib self ;;
  response <- session_request lib POST (access_token self) u (Some body) ;;
  _ <- try_raise_for_status response ;;
  Ok (text response).

End CreateAnAlertAPI.

Module UpdateAnAlertAPI.

Record t : Type := {
  access_token : string;
  account_id : string;
  alert_id : string;
  name : string;
  queryd : dict Json;
  languages : list string;
  countries : Json;
  sources : Json;
  blocked_sites : Json;
  noise_detection : PyVal;
  reviews_pages : Json
}.

Definition __init__ (access_token account_id alert_id name : string)
    (queryd : dict Json) (languages : list string)
    (countries sources blocked_sites : option (list string))
    (noise_detection : option bool)
    (reviews_pages : option (list string)) : t :=
  {| access_token := access_token;
     account_id := account_id;
     alert_id := alert_id;
     name := name;
     queryd := queryd;
     languages := languages;
     countries := of_opt_list countries;
     sources := of_opt_list sources;
     blocked_sites := of_opt_list blocked_sites;
     noise_detection :=
       match noise_detection with
       | Some b => VStr (utils.transform_boolean b)
       | None => VNone
       end;
     reviews_pages := of_opt_list reviews_pages |}.

Definition params (self : t) : dict PyVal :=
  let params := [] in
  let params := dict_set "access_token" (VStr (access_token self)) params in
  let params := dict_set "account_id" (VStr (account_id self)) params in
  let params := dict_set "alert_id" (VStr (alert_id self)) params in
  params.

(** The dictionary that [data] hands to [json.dumps]. *)
Definition data_dict (self : t) : result (dict Json) :=
  let data := [] in
  let data := dict_set "name" (jstr (name self)) data in
  let data := dict_set "query" (JDict (queryd self)) data in
  let data := dict_set "languages" (JList (map jstr (languages self))) data in
  let data := dict_set "countries"
    (if jtruthy (countries self) then countries self else jstr "") data in
  let data := dict_set "sources"
    (if jtruthy (sources self) then sources self else jstr "") data in
  let data := dict_set "blocked_sites"
    (if jtruthy (blocked_sites self) then blocked_sites self else jstr "") data in
  let data := dict_set "noise_detection"
    (if truthy (noise_detection self) then JAtom (noise_detection self)
     else jstr "") data in
  let data := dict_set "reviews_pages"
    (if jtruthy (reviews_pages self) then reviews_pages self else jstr "") data in
  jdel_empty data.

Definition data {J : Type} (lib : Lib J) (self : t) : result string :=
  d <- data_dict self ;;
  Ok (json_dumps lib d).

Definition url (self : t) : result string :=
  end_url <- format "/accounts/{account_id}/alerts/{alert_id}" (params self) ;;
  Ok (_base_url ++ end_url).

Definition query {J : Type} (lib : Lib J) (self : t) : result J :=
  u <- url self ;;
  body <- data lib self ;;
  response <- session_request lib PUT (access_token self) u (Some body) ;;
  _ <- try_raise_for_status response ;;
  data <- response_json lib response ;;
  Ok data.

End UpdateAnAlertAPI.

Module FetchAlertsAPI.

Record t : Type := {
  access_token : string;
  account_id : string
}.

Definition __init__ (access_token account_id : string) : t :=
  {| access_token := access_token; account_id := account_id |}.

Definition params (self : t) : dict PyVal :=
  let params := [] in
  let params := dict_set "access_token" (VStr (access_token self)) params in
  let params := dict_set "account_id" (VStr (account_id self)) params in
  params.

Definition url (self : t) : result string :=
  end_url <- format "/accounts/{account_id}/alerts" (params self) ;;
  Ok (_base_url ++ end_url).

Definition query {J : Type} (lib : Lib J) (self : t) : result J :=
  u <- url self ;;
  response <- session_request lib GET (access_token self) u None ;;
  _ <- try_raise_for_status response ;;
  data <- response_json lib response ;;
  Ok data.

End FetchAlertsAPI.

Module FetchAMentionAPI.

Record t : Type := {
  access_token : string;
  account_id : string;
  alert_id : string;
  mention_id : string
}.

Definition __init__ (access_token account_id alert_id mention_id : string) : t :=
  {| access_token := access_token;
     account_id := account_id;
     alert_id := alert_id;
     mention_id := mention_id |}.

Definition params (self : t) : dict PyVal :=
  let params := [] in
  let params := dict_set "access_token" (VStr (access_token self)) params in
  let params := dict_set "account_id" (VStr (account_id self)) params in
  let params := dict_set "alert_id" (VStr (alert_id self)) params in
  let params := dict_set "mention_id" (VStr (mention_id self)) params in
  params.

Definition url (self : t) : result string :=
  end_url <- format
    "/accounts/{account_id}/alerts/{alert_id}/mentions/{mention_id}"
    (params self) ;;
  Ok (_base_url ++ end_url).

Definition query {J : Type} (lib : Lib J) (self : t) : result J :=
  u <- url self ;;
  response <- session_request lib GET (access_token self) u None ;;
  _ <- try_raise_for_status response ;;
  data <- response_json lib response ;;
  Ok data.

End FetchAMentionAPI.

Module FetchAllMentionsAPI.

(** The optional arguments of the constructor.  [None] is an argument left
    out or passed as [None]; for [limit], whose default is not [None],
    [None] is the argument left out and [Some v] the value passed. *)
Record kwargs : Type := {
  kw_since_id : option string;
  kw_limit : option PyVal;
  kw_before_date : option string;
  kw_not_before_date : option string;
  kw_source : option string;
  kw_unread : option bool;
  kw_favorite : option bool;
  kw_folder : option string;
  kw_tone : option string;
  kw_countries : option string;
  kw_include_children : option bool;
  kw_sort : option string;
  kw_languages : option string;
  kw_timezone : option string;
  kw_q : option string;
  kw_cursor : option string
}.

(** A call with the three positional arguments only. *)
Definition defaults : kwargs :=
  {| kw_since_id := None;
     kw_limit := None;
     kw_before_date := None;
     kw_not_before_date := None;
     kw_source := None;
     kw_unread := None;
     kw_favorite := None;
     kw_folder := None;
     kw_tone := None;
     kw_countries := None;
     kw_include_children := None;
     kw_sort := None;
     kw_languages := None;
     kw_timezone := None;
     kw_q := None;
     kw_cursor := None |}.

Record t : Type := {
  access_token : string;
  account_id : string;
  alert_id : string;
  limit : PyVal;
  since_id : PyVal;
  before_date : PyVal;
  not_before_date : PyVal;
  source : PyVal;
  unread : PyVal;
  favorite : PyVal;
  folder : PyVal;
  tone : PyVal;
  countries : PyVal;
  include_children : PyVal;
  sort : PyVal;
  languages : PyVal;
  timezone : PyVal;
  q : PyVal;
  cursor : PyVal
}.

Definition __init__ (access_token account_id alert_id : string)
    (kw : kwargs) : result t :=
  let limit := match kw_limit kw with Some v => v | None => VStr "20" end in
  before_date <- opt_date (kw_before_date kw) ;;
  not_before_date <- opt_date (kw_not_before_date kw) ;;
  tone <- opt_tone (kw_tone kw) ;;
  Ok {| access_token := access_token;
        account_id := account_id;
        alert_id := alert_id;
        limit := limit;
        since_id := of_opt_str (kw_since_id kw);
        before_date := before_date;
        not_before_date := not_before_date;
        source := of_opt_str (kw_source kw);
        unread := opt_boolean (kw_unread kw);
        favorite := opt_boolean (kw_favorite kw);
        folder := of_opt_str (kw_folder kw);
        tone := tone;
        countries := of_opt_str (kw_countries kw);
        include_children := opt_boolean (kw_include_children kw);
        sort := of_opt_str (kw_sort kw);
        languages := of_opt_str (kw_languages kw);
        timezone := of_opt_str (kw_timezone kw);
        q := of_opt_str (kw_q kw);
        cursor := of_opt_str (kw_cursor kw) |}.

(** The dictionary of [params] before the empty values are deleted, given
    the value [n] of [int(self.limit)]. *)
Definition params_filled (self : t) (n : Z) : dict PyVal :=
  let params := [] in
  let params := dict_set "access_token" (VStr (access_token self)) params in
  let params := dict_set "account_id" (VStr (account_id self)) params in
  let params := dict_set "alert_id" (VStr (alert_id self)) params in
  let params :=
    if truthy (since_id self) then
      dict_set "since_id" (since_id self) params
    else
      let params := dict_set "before_date"
        (or_empty (before_date self) (before_date self)) params in
      let params := dict_set "not_before_date"
        (or_empty (before_date self) (not_before_date self)) params in
      dict_set "cursor" (or_empty (cursor self) (cursor self)) params in
  let params :=
    if truthy (unread self) then
      dict_set "unread" (unread self) params
    else
      let params :=
        if truthy (favorite self)
           && (eq_str (folder self) "inbox" || eq_str (folder self) "archive")
        then
          let params := dict_set "favorite" (favorite self) params in
          dict_set "folder" (folder self) params
        else
          dict_set "folder" (or_empty (folder self) (folder self)) params in
      let params := dict_set "q" (or_empty (q self) (q self)) params in
      dict_set "tone" (or_empty (tone self) (tone self)) params in
  let params :=
    if n >? 1000 then dict_set "limit" (VStr "1000") params
    else if n <? 1 then dict_set "limit" (VStr "") params
    else dict_set "limit" (limit self) params in
  let params := dict_set "source"
    (or_empty (source self) (source self)) params in
  let params := dict_set "countries"
    (or_empty (countries self) (countries self)) params in
  let params := dict_set "include_children"
    (or_empty (include_children self) (include_children self)) params in
  let params := dict_set "sort" (or_empty (sort self) (sort self)) params in
  let params := dict_set "languages"
    (or_empty (languages self) (languages self)) params in
  let params := dict_set "timezone"
    (or_empty (timezone self) (timezone self)) params in
  params.

(** [int(self.limit)] is the only expression of [params] that can raise;
    nothing before it has an effect outside the local dictionary. *)
Definition params (self : t) : result (dict PyVal) :=
  n <- py_int (limit self) ;;
  del_empty (params_filled self n).

Definition url (self : t) : result string :=
  let end_url := "/accounts/{account_id}/alerts/{alert_id}/mentions?" in
  p <- params self ;;
  let parameters := without_keys p path_keys in
  let end_url := add_fields end_url parameters in
  p' <- params self ;;
  end_url <- format end_url p' ;;
  Ok (_base_url ++ end_url).

Definition query {J : Type} (lib : Lib J) (self : t) : result J :=
  u <- url self ;;
  response <- session_request lib GET (access_token self) u None ;;
  _ <- try_raise_for_status response ;;
  data <- response_json lib response ;;
  Ok data.

End FetchAllMentionsAPI.

Module FetchMentionChildrenAPI.

Record t : Type := {
  access_token : string;
  account_id : string;
  alert_id : string;
  mention_id : string;
  limit : PyVal;
  before_date : PyVal
}.

(** [limit] and [before_date] default to [None]. *)
Definition __init__ (access_token account_id alert_id mention_id : string)
    (limit : PyVal) (before_date : option string) : result t :=
  before_date <- opt_date before_date ;;
  Ok {| access_token := access_token;
        account_id := account_id;
        alert_id := alert_id;
        mention_id := mention_id;
        limit := limit;
        before_date := before_date |}.

Definition params (self : t) : result (dict PyVal) :=
  let params := [] in
  let params := dict_set "access_token" (VStr (access_token self)) params in
  let params := dict_set "account_id" (VStr (account_id self)) params in
  let params := dict_set "alert_id" (VStr (alert_id self)) params in
  let params := dict_set "mention_id" (VStr (mention_id self)) params in
  let params := dict_set "before_date"
    (if truthy (before_date self) then before_date self else VStr "") params in
  if truthy (limit self) then
    n <- py_int (limit self) ;;
    if n >? 1000 then Ok (dict_set "limit" (VStr "1000") params)
    else if n <? 1 then Ok (dict_set "limit" (VStr "") params)
    else Ok (dict_set "limit" (limit self) params)
  else Ok params.

Definition url (self : t) : result string :=
  let end_url :=
    "/accounts/{account_id}/alerts/{alert_id}/mentions/{mention_id}/children?" in
  p <- params self ;;
  let parameters := without_keys p path_keys in
  let end_url := add_fields end_url parameters in
  p' <- params self ;;
  end_url <- format end_url p' ;;
  Ok (_base_url ++ end_url).

Definition query {J : Type} (lib : Lib J) (self : t) : result J :=
  u <- url self ;;
  response <- session_request lib GET (access_token self) u None ;;
  _ <- try_raise_for_status response ;;
  data <- response_json lib response ;;
  Ok data.

End FetchMentionChildrenAPI.

Module CurateAMentionAPI.

Record t : Type := {
  access_token : string;
  account_id : string;
  alert_id : string;
  mention_id : string;
  favorite : PyVal;
  trashed : PyVal;
  read : PyVal;
  tags : Json;
  folder : PyVal;
  tone : PyVal
}.

(** [self.read = tone = utils.transform_tone(read)] rebinds the local
    [tone], which [self.tone = tone] stores afterwards. *)
Definition __init__ (access_token account_id alert_id mention_id : string)
    (favorite trashed : option bool) (read : option string)
    (tags : option (dict Json)) (folder tone : option string) : result t :=
  let favorite := opt_boolean favorite in
  let trashed := opt_boolean trashed in
  read_tone <-
    match read with
    | Some r => s <- utils.transform_tone r ;; Ok (VStr s, VStr s)
    | None => Ok (VNone, of_opt_str tone)
    end ;;
  Ok {| access_token := access_token;
        account_id := account_id;
        alert_id := alert_id;
        mention_id := mention_id;
        favorite := favorite;
        trashed := trashed;
        read := fst read_tone;
        tags := match tags with Some d => JDict d | None => JAtom VNone end;
        folder := of_opt_str folder;
        tone := snd read_tone |}.

Definition params (self : t) : dict PyVal :=
  let params := [] in
  let params := dict_set "access_token" (VStr (access_token self)) params in
  let params := dict_set "account_id" (VStr (account_id self)) params in
  let params := dict_set "alert_id" (VStr (alert_id self)) params in
  let params := dict_set "mention_id" (VStr (mention_id self)) params in
  params.

Definition jor_empty (v : PyVal) : Json :=
  if truthy v then JAtom v else jstr "".

(** The dictionary that [data] hands to [json.dumps]. *)
Definition data_dict (self : t) : result (dict Json) :=
  let data := [] in
  let data := dict_set "favorite" (jor_empty (favorite self)) data in
  let data := dict_set "trashed" (jor_empty (trashed self)) data in
  let data := dict_set "read" (jor_empty (read self)) data in
  let data := dict_set "tags"
    (if jtruthy (tags self) then tags self else jstr "") data in
  let data := dict_set "folder" (jor_empty (folder self)) data in
  let data := dict_set "tone" (jor_empty (tone self)) data in
  jdel_empty data.

Definition data {J : Type} (lib : Lib J) (self : t) : result string :=
  d <- data_dict self ;;
  Ok (json_dumps lib d).

Definition url (self : t) : result string :=
  end_url <- format
    "/accounts/{account_id}/alerts/{alert_id}/mentions/{mention_id}"
    (params self) ;;
  Ok (_base_url ++ end_url).

Definition query {J : Type} (lib : Lib J) (self : t) : result J :=
  u <- url self ;;
  body <- data lib self ;;
  response <- session_request lib PUT (access_token self) u (Some body) ;;
  _ <- try_raise_for_status response ;;
  data <- response_json lib response ;;
  Ok data.

End CurateAMentionAPI.

Module MarkAllMentionsAsReadAPI.

Record t : Type := {
  access_token : string;
  account_id : string;
  alert_id : string
}.

Definition __init__ (access_token account_id alert_id : string) : t :=
  {| access_token := access_token;
     account_id := account_id;
     alert_id := alert_id |}.

Definition params (self : t) : dict PyVal :=
  let params := [] in
  let params := dict_set "access_token" (VStr (access_token self)) params in
  let params := dict_set "account_id" (VStr (account_id self)) params in
  let params := dict_set "alert_id" (VStr (alert_id self)) params in
  params.

Definition url (self : t) : result string :=
  end_url <- format
    "/accounts/{account_id}/alerts/{alert_id}/mentions/markallread"
    (params self) ;;
  Ok (_base_url ++ end_url).

Definition query {J : Type} (lib : Lib J) (self : t) : result J :=
  u <- url self ;;
  response <- session_request lib POST (access_token self) u None ;;
  _ <- try_raise_for_status response ;;
  data <- response_json lib response ;;
  Ok data.

End MarkAllMentionsAsReadAPI.

(** ** Notions used in the statements *)

Definition nonempty {V : Type} (is_empty : V -> bool) (kv : string * V) : bool :=
  negb (is_empty (snd kv)).

(** A string without braces: literal text of a template, or a field name. *)
Fixpoint plain (s : string) : bool :=
  match s with
  | EmptyString => true
  | String c r => negb (c =? "{")%char && negb (c =? "}")%char && plain r
  end.

(** [sub in s] *)
Definition contains (sub s : string) : bool :=
  match index 0 sub s with
  | Some _ => true
  | None => false
  end.

(** The keys of a dictionary are distinct and free of braces. *)
Definition wf {V : Type} (d : dict V) : Prop :=
  NoDup (keys d) /\ Forall (fun k => plain k = true) (keys d).

(** The parameters that [url] turns into query fields, in their order. *)
Definition query_items (p : dict PyVal) : dict PyVal :=
  filter (nonempty is_empty_str) (without_keys p path_keys).

(** The replacement fields that [add_fields] appends for [items]. *)
Fixpoint fields_template (items : dict PyVal) : string :=
  match items with
  | [] => EmptyString
  | (k, _) :: r => "&" ++ k ++ "={" ++ k ++ "}" ++ fields_template r
  end.

(** The query string of [items]. *)
Fixpoint render_query (items : dict PyVal) : string :=
  match items with
  | [] => EmptyString
  | (k, v) :: r => "&" ++ k ++ "=" ++ py_str v ++ render_query r
  end.

(** [a] is [b] with some elements left out, the order kept. *)
Fixpoint subseq (a b : list string) : bool :=
  match a, b with
  | [], _ => true
  | _ :: _, [] => false
  | x :: a', y :: b' =>
      if (x =? y)%string then subseq a' b' else subseq a b'
  end.

(** The keys in the order in which [FetchAllMentionsAPI.params] assigns
    them. *)
Definition mentions_key_order : list string :=
  ["access_token"; "account_id"; "alert_id"; "since_id"; "before_date";
   "not_before_date"; "cursor"; "unread"; "favorite"; "folder"; "q"; "tone";
   "limit"; "source"; "countries"; "include_children"; "sort"; "languages";
   "timezone"].

(** The keys in the order in which the [data] of an alert assigns them. *)
Definition alert_key_order : list string :=
  ["name"; "query"; "languages"; "countries"; "sources"; "blocked_sites";
   "noise_detection"; "reviews_pages"].

(** The keys in the order in which [CurateAMentionAPI.data] assigns
    them. *)
Definition curate_key_order : list string :=
  ["favorite"; "trashed"; "read"; "tags"; "folder"; "tone"].

(** ** Sample builds *)

(** The children of a mention asked with the limit 0 as a string. *)
Definition children_limit_0 : result FetchMentionChildrenAPI.t :=
  FetchMentionChildrenAPI.__init__ "T" "A" "B" "M" (VStr "0") None.

(** The url of a mention list with the parameters [p], and of the
    children of a mention. *)
Definition mentions_url (acc al : string) (p : dict PyVal) : string :=
  _base_url ++ "/accounts/" ++ acc ++ "/alerts/" ++ al ++ "/mentions?"
    ++ render_query (query_items p).

Definition children_url (acc al mid : string) (p : dict PyVal) : string :=
  _base_url ++ "/accounts/" ++ acc ++ "/alerts/" ++ al ++ "/mentions/" ++ mid
    ++ "/children?" ++ render_query (query_items p).

(** A mention list object with the given attributes, the others [None]. *)
Definition mentions_self (acc al : string)
    (limit since_id before_date not_before_date source : PyVal)
  : FetchAllMentionsAPI.t :=
  {| FetchAllMentionsAPI.access_token := "T";
     FetchAllMentionsAPI.account_id := acc;
     FetchAllMentionsAPI.alert_id := al;
     FetchAllMentionsAPI.limit := limit;
     FetchAllMentionsAPI.since_id := since_id;
     FetchAllMentionsAPI.before_date := before_date;
     FetchAllMentionsAPI.not_before_date := not_before_date;
     FetchAllMentionsAPI.source := source;
     FetchAllMentionsAPI.unread := VNone;
     FetchAllMentionsAPI.favorite := VNone;
     FetchAllMentionsAPI.folder := VNone;
     FetchAllMentionsAPI.tone := VNone;
     FetchAllMentionsAPI.countries := VNone;
     FetchAllMentionsAPI.include_children := VNone;
     FetchAllMentionsAPI.sort := VNone;
     FetchAllMentionsAPI.languages := VNone;
     FetchAllMentionsAPI.timezone := VNone;
     FetchAllMentionsAPI.q := VNone;
     FetchAllMentionsAPI.cursor := VNone |}.

(** A children listing object. *)
Definition children_self (acc al mid : string) (limit before_date : PyVal)
  : FetchMentionChildrenAPI.t :=
  {| FetchMentionChildrenAPI.access_token := "T";
     FetchMentionChildrenAPI.account_id := acc;
     FetchMentionChildrenAPI.alert_id := al;
     FetchMentionChildrenAPI.mention_id := mid;
     FetchMentionChildrenAPI.limit := limit;
     FetchMentionChildrenAPI.before_date := before_date |}.

(** A mention list asked for with [since_id] and with the filters it
    excludes. *)
Definition kw_since : FetchAllMentionsAPI.kwargs :=
  {| FetchAllMentionsAPI.kw_since_id := Some "42";
     FetchAllMentionsAPI.kw_limit := None;
     FetchAllMentionsAPI.kw_before_date := Some "2018-11-25 12:00";
     FetchAllMentionsAPI.kw_not_before_date := Some "2018-11-01 00:00";
     FetchAllMentionsAPI.kw_source := None;
     FetchAllMentionsAPI.kw_unread := None;
     FetchAllMentionsAPI.kw_favorite := None;
     FetchAllMentionsAPI.kw_folder := None;
     FetchAllMentionsAPI.kw_tone := None;
     FetchAllMentionsAPI.kw_countries := None;
     FetchAllMentionsAPI.kw_include_children := None;
     FetchAllMentionsAPI.kw_sort := None;
     FetchAllMentionsAPI.kw_languages := None;
     FetchAllMentionsAPI.kw_timezone := None;
     FetchAllMentionsAPI.kw_q := None;
     FetchAllMentionsAPI.kw_cursor := Some "c" |}.

(** A mention list asked for with [not_before_date] alone. *)
Definition kw_not_before : FetchAllMentionsAPI.kwargs :=
  {| FetchAllMentionsAPI.kw_since_id := None;
     FetchAllMentionsAPI.kw_limit := None;
     FetchAllMentionsAPI.kw_before_date := None;
     FetchAllMentionsAPI.kw_not_before_date := Some "2018-11-25 12:00";
     FetchAllMentionsAPI.kw_source := None;
     FetchAllMentionsAPI.kw_unread := None;
     FetchAllMentionsAPI.kw_favorite := None;
     FetchAllMentionsAPI.kw_folder := None;
     FetchAllMentionsAPI.kw_tone := None;
     FetchAllMentionsAPI.kw_countries := None;
     FetchAllMentionsAPI.kw_include_children := None;
     FetchAllMentionsAPI.kw_sort := None;
     FetchAllMentionsAPI.kw_languages := None;
     FetchAllMentionsAPI.kw_timezone := None;
     FetchAllMentionsAPI.kw_q := None;
     FetchAllMentionsAPI.kw_cursor := None |}.

(** A mention list asked for with [before_date] alone. *)
Definition kw_before : FetchAllMentionsAPI.kwargs :=
  {| FetchAllMentionsAPI.kw_since_id := None;
     FetchAllMentionsAPI.kw_limit := None;
     FetchAllMentionsAPI.kw_before_date := Some "2018-11-25 12:00";
     FetchAllMentionsAPI.kw_not_before_date := None;
     FetchAllMentionsAPI.kw_source := None;
     FetchAllMentionsAPI.kw_unread := None;
     FetchAllMentionsAPI.kw_favorite := None;
     FetchAllMentionsAPI.kw_folder := None;
     FetchAllMentionsAPI.kw_tone := None;
     FetchAllMentionsAPI.kw_countries := None;
     FetchAllMentionsAPI.kw_include_children := None;
     FetchAllMentionsAPI.kw_sort := None;
     FetchAllMentionsAPI.kw_languages := None;
     FetchAllMentionsAPI.kw_timezone := None;
     FetchAllMentionsAPI.kw_q := None;
     FetchAllMentionsAPI.kw_cursor := None |}.

(** The end-to-end example: limit 5000, folder inbox, favorite. *)
Definition kw_inbox (limit : PyVal) : FetchAllMentionsAPI.kwargs :=
  {| FetchAllMentionsAPI.kw_since_id := None;
     FetchAllMentionsAPI.kw_limit := Some limit;
     FetchAllMentionsAPI.kw_before_date := None;
     FetchAllMentionsAPI.kw_not_before_date := None;
     FetchAllMentionsAPI.kw_source := None;
     FetchAllMentionsAPI.kw_unread := None;
     FetchAllMentionsAPI.kw_favorite := Some true;
     FetchAllMentionsAPI.kw_folder := Some "inbox";
     FetchAllMentionsAPI.kw_tone := None;
     FetchAllMentionsAPI.kw_countries := None;
     FetchAllMentionsAPI.kw_include_children := None;
     FetchAllMentionsAPI.kw_sort := None;
     FetchAllMentionsAPI.kw_languages := None;
     FetchAllMentionsAPI.kw_timezone := None;
     FetchAllMentionsAPI.kw_q := None;
     FetchAllMentionsAPI.kw_cursor := None |}.

(** What the end-to-end example yields for a given [limit]. *)
Definition inbox_run (limit : PyVal) : Prop :=
  exists self p query,
    FetchAllMentionsAPI.__init__ "T" "A" "B" (kw_inbox limit) = Ok self
    /\ FetchAllMentionsAPI.params self = Ok p
    /\ p = [("access_token", VStr "T"); ("account_id", VStr "A");
            ("alert_id", VStr "B"); ("favorite", VStr "true");
            ("folder", VStr "inbox"); ("limit", VStr "1000")]
    /\ FetchAllMentionsAPI.url self
       = Ok (_base_url ++ "/accounts/A/alerts/B/mentions" ++ "?" ++ query)
    /\ query = "&favorite=true&folder=inbox&limit=1000"
    /\ contains "limit=1000" query = true
    /\ contains "favorite=true" query = true
    /\ contains "folder=inbox" query = true
    /\ contains "before_date" query = false
    /\ contains "cursor" query = false
    /\ dict_get "before_date" p = None
    /\ dict_get "cursor" p = None.

(** Unread passed as [False], with the filters it excludes. *)
Definition kw_unread_false : FetchAllMentionsAPI.kwargs :=
  {| FetchAllMentionsAPI.kw_since_id := None;
     FetchAllMentionsAPI.kw_limit := None;
     FetchAllMentionsAPI.kw_before_date := None;
     FetchAllMentionsAPI.kw_not_before_date := None;
     FetchAllMentionsAPI.kw_source := None;
     FetchAllMentionsAPI.kw_unread := Some false;
     FetchAllMentionsAPI.kw_favorite := None;
     FetchAllMentionsAPI.kw_folder := Some "inbox";
     FetchAllMentionsAPI.kw_tone := Some "positive";
     FetchAllMentionsAPI.kw_countries := None;
     FetchAllMentionsAPI.kw_include_children := None;
     FetchAllMentionsAPI.kw_sort := None;
     FetchAllMentionsAPI.kw_languages := None;
     FetchAllMentionsAPI.kw_timezone := None;
     FetchAllMentionsAPI.kw_q := Some "nasa";
     FetchAllMentionsAPI.kw_cursor := None |}.

(** A mention curated with a tone outside the vocabulary. *)
Definition curate_happy : result CurateAMentionAPI.t :=
  CurateAMentionAPI.__init__ "T" "A" "B" "M" None None None None None
    (Some "happy").

(** The children of a mention asked with no optional argument. *)
Definition children_plain : result FetchMentionChildrenAPI.t :=
  FetchMentionChildrenAPI.__init__ "T" "A" "B" "M" VNone None.

(** A transport that answers every request with status 404, and a decoder
    that returns the body as it is. *)
Definition lib_404 : Lib string :=
  {| json_dumps := fun _ => "{}";
     session_request := fun _ _ _ _ =>
       Ok {| status_code := 404; text := "not found" |};
     response_json := fun r => Ok (text r) |}.

(** * Properties *)

(** ** Strings *)

Lemma append_assoc (a b c : string) : ((a ++ b) ++ c = a ++ (b ++ c))%string.
Proof.
  induction a as [|x a IH]; simpl; [reflexivity|].
  now rewrite IH.
Qed.

Lemma append_nil_r (a : string) : (a ++ "" = a)%string.
Proof.
  induction a as [|x a IH]; simpl; [reflexivity|].
  now rewrite IH.
Qed.

(** ** Sample values *)

Example py_int_samples :
  py_int (VStr "20") = Ok 20
  /\ py_int (VStr " 5000 ") = Ok 5000
  /\ py_int (VStr "-3") = Ok (-3)
  /\ py_int (VStr "1_000") = Ok 1000
  /\ py_int (VInt 7) = Ok 7
  /\ py_int (VStr "") = Raise ValueError
  /\ py_int (VStr "1__0") = Raise ValueError
  /\ py_int (VStr "ten") = Raise ValueError
  /\ py_int VNone = Raise TypeError.
Proof. repeat split; reflexivity. Qed.

Example py_str_samples :
  py_str (VInt 500) = "500"
  /\ py_str (VInt (-3)) = "-3"
  /\ py_str VNone = "None"
  /\ py_str (VBool true) = "True".
Proof. repeat split; reflexivity. Qed.

Example format_samples :
  format "/accounts/{account_id}/alerts" [("account_id", VStr "A")]
  = Ok "/accounts/A/alerts"
  /\ format "/accounts/{account_id}" [] = Raise KeyError
  /\ format "a}b" [] = Raise ValueError.
Proof. repeat split; reflexivity. Qed.

Example transform_date_samples :
  utils.transform_date "2018-11-25 12:00"
  = Ok "2018-11-25T12:00:00.000000+00:00"
  /\ utils.transform_date "2018-02-30 12:00" = Raise ValidationError
  /\ utils.transform_date "25/11/2018" = Raise ValidationError
  /\ utils.transform_tone "positive" = Ok "positive"
  /\ utils.transform_tone "happy" = Raise ValidationError.
Proof. repeat split; reflexivity. Qed.

Example mentions_defaults_url :
  (self <- FetchAllMentionsAPI.__init__ "T" "A" "B" FetchAllMentionsAPI.defaults ;;
   FetchAllMentionsAPI.url self)
  = Ok "https://api.mention.net/api/accounts/A/alerts/B/mentions?&limit=20".
Proof. reflexivity. Qed.

Example children_url_sample :
  (self <- FetchMentionChildrenAPI.__init__ "T" "A" "B" "M" (VStr "50")
             (Some "2018-11-25 12:00") ;;
   FetchMentionChildrenAPI.url self)
  = Ok ("https://api.mention.net/api/accounts/A/alerts/B/mentions/M/children?"
          ++ "&mention_id=M&before_date=2018-11-25T12:00:00.000000+00:00"
          ++ "&limit=50").
Proof. reflexivity. Qed.

(** ** Dictionaries *)

Section DictFacts.

Context {V : Type}.
Implicit Types (d : dict V) (k : string) (v : V).
Local Open Scope list_scope.

Lemma dict_get_set k k' v d :
  dict_get k (dict_set k' v d)
  = if (k' =? k)%string then Some v else dict_get k d.
Proof.
  induction d as [|[k0 v0] d IH]; simpl.
  - reflexivity.
  - destruct (String.eqb_spec k0 k') as [->|Hne]; simpl.
    + destruct (k' =? k)%string; reflexivity.
    + rewrite IH.
      destruct (String.eqb_spec k0 k) as [->|Hne'].
      * destruct (String.eqb_spec k' k); [congruence|reflexivity].
      * reflexivity.
Qed.

Lemma in_keys_set k k' v d :
  In k (keys (dict_set k' v d)) <-> k = k' \/ In k (keys d).
Proof.
  unfold keys.
  induction d as [|[k0 v0] d IH]; simpl.
  - intuition.
  - destruct (String.eqb_spec k0 k') as [->|Hne]; simpl.
    + intuition.
    + rewrite IH. intuition.
Qed.

Lemma NoDup_keys_set k v d :
  NoDup (keys d) -> NoDup (keys (dict_set k v d)).
Proof.
  unfold keys.
  induction d as [|[k0 v0] d IH]; simpl; intros Hnd.
  - constructor; [intros []|constructor].
  - inversion Hnd as [|? ? Hnotin Hnd']; subst.
    destruct (String.eqb_spec k0 k) as [->|Hne]; simpl.
    + constructor; assumption.
    + constructor; [|auto].
      intros Hin. apply (in_keys_set k0 k v d) in Hin.
      destruct Hin; [congruence|contradiction].
Qed.

Lemma dict_get_None_notin k d :
  ~ In k (keys d) -> dict_get k d = None.
Proof.
  unfold keys.
  induction d as [|[k0 v0] d IH]; simpl; intros Hnotin.
  - reflexivity.
  - destruct (String.eqb_spec k0 k) as [->|Hne]; [tauto|].
    apply IH. tauto.
Qed.

Lemma In_dict_get k v d :
  NoDup (keys d) -> In (k, v) d -> dict_get k d = Some v.
Proof.
  unfold keys.
  induction d as [|[k0 v0] d IH]; simpl; intros Hnd Hin; [contradiction|].
  inversion Hnd as [|? ? Hnotin Hnd']; subst.
  destruct Hin as [[= -> ->]|Hin].
  - now rewrite String.eqb_refl.
  - destruct (String.eqb_spec k0 k) as [->|Hne]; [|auto].
    exfalso. apply Hnotin. change k with (fst (k, v)). now apply in_map.
Qed.

(** Dropping the items whose value is the empty string. *)
Lemma dict_get_nonempty (is_empty : V -> bool) k d :
  NoDup (keys d) ->
  dict_get k (filter (nonempty is_empty) d)
  = match dict_get k d with
    | Some v => if is_empty v then None else Some v
    | None => None
    end.
Proof.
  unfold keys, nonempty.
  induction d as [|[k0 v0] d IH]; simpl; intros Hnd; [reflexivity|].
  inversion Hnd as [|? ? Hnotin Hnd']; subst.
  destruct (String.eqb_spec k0 k) as [->|Hne].
  - destruct (is_empty v0) eqn:Hg; simpl.
    + rewrite IH by assumption.
      now rewrite (dict_get_None_notin k d Hnotin).
    + now rewrite String.eqb_refl.
  - destruct (is_empty v0); simpl; [auto|].
    destruct (String.eqb_spec k0 k); [congruence|auto].
Qed.

Lemma keys_filter_incl (f : string * V -> bool) k d :
  In k (keys (filter f d)) -> In k (keys d).
Proof.
  unfold keys. rewrite !in_map_iff.
  intros [kv [Hk Hin]]. apply filter_In in Hin. exists kv. tauto.
Qed.

Lemma NoDup_keys_filter (f : string * V -> bool) d :
  NoDup (keys d) -> NoDup (keys (filter f d)).
Proof.
  unfold keys.
  induction d as [|[k0 v0] d IH]; simpl; intros Hnd; [constructor|].
  inversion Hnd as [|? ? Hnotin Hnd']; subst.
  destruct (f (k0, v0)); simpl; [|auto].
  constructor; [|auto].
  intros Hin. apply Hnotin. exact (keys_filter_incl f k0 d Hin).
Qed.

Lemma dict_get_without_keys k ks d :
  dict_get k (without_keys d ks)
  = if existsb (String.eqb k) ks then None else dict_get k d.
Proof.
  unfold without_keys.
  induction d as [|[k0 v0] d IH]; simpl.
  - now destruct (existsb _ ks).
  - destruct (String.eqb_spec k0 k) as [->|Hne].
    + destruct (existsb (String.eqb k) ks) eqn:Hex; simpl.
      * rewrite IH. reflexivity.
      * now rewrite String.eqb_refl.
    + destruct (existsb (String.eqb k0) ks); simpl; [exact IH|].
      destruct (String.eqb_spec k0 k); [congruence|exact IH].
Qed.

(** Removing a key present once, at a known position. *)
Lemma dict_del_middle k v (a b : dict V) :
  ~ In k (keys a) ->
  dict_del k (a ++ (k, v) :: b) = Ok (a ++ b).
Proof.
  unfold dict_del, dict_mem, keys.
  induction a as [|[k0 v0] a IH]; simpl; intros Hnotin.
  - now rewrite String.eqb_refl.
  - destruct (String.eqb_spec k0 k) as [->|Hne]; [tauto|].
    assert (Ha : ~ In k (map fst a)) by tauto.
    specialize (IH Ha).
    destruct (dict_get k (a ++ (k, v) :: b)); [|discriminate].
    injection IH as ->. reflexivity.
Qed.

(** The deleting loop never raises on a dictionary and leaves the items
    whose value is not the empty string, in their order. *)
Lemma del_empty_loop_filter (is_empty : V -> bool) (done items : dict V) :
  NoDup (keys (done ++ items)) ->
  del_empty_loop is_empty items (filter (nonempty is_empty) done ++ items)
  = Ok (filter (nonempty is_empty) (done ++ items)).
Proof.
  revert done.
  induction items as [|[k v] items IH]; intros done Hnd; simpl.
  - now rewrite !app_nil_r.
  - assert (Happ : (done ++ [(k, v)]) ++ items = done ++ (k, v) :: items)
      by now rewrite <- app_assoc.
    assert (Hf : filter (nonempty is_empty) (done ++ [(k, v)])
                 = filter (nonempty is_empty) done
                   ++ (if is_empty v then [] else [(k, v)])).
    { rewrite filter_app. simpl. unfold nonempty at 2. simpl.
      now destruct (is_empty v). }
    specialize (IH (done ++ [(k, v)])).
    rewrite Happ, Hf in IH. specialize (IH Hnd).
    destruct (is_empty v) eqn:Hv.
    + rewrite app_nil_r in IH.
      rewrite dict_del_middle; [exact IH|].
      intros Hin. apply keys_filter_incl in Hin.
      unfold keys in Hnd. rewrite map_app in Hnd. simpl in Hnd.
      apply NoDup_remove_2 in Hnd. apply Hnd.
      apply in_or_app. now left.
    + rewrite <- app_assoc in IH. exact IH.
Qed.

Lemma del_empty_loop_spec (is_empty : V -> bool) d :
  NoDup (keys d) ->
  del_empty_loop is_empty d d = Ok (filter (nonempty is_empty) d).
Proof.
  intros Hnd. exact (del_empty_loop_filter is_empty [] d Hnd).
Qed.

End DictFacts.

(** ** [str.format] on the templates of the module *)

Lemma plain_app (a b : string) :
  plain (a ++ b) = plain a && plain b.
Proof.
  induction a as [|c a IH]; simpl; [reflexivity|].
  rewrite IH. now rewrite !andb_assoc.
Qed.

Lemma bind_ret {A : Type} (r : result A) : (x <- r ;; Ok x) = r.
Proof. now destruct r. Qed.

(** Literal text is copied. *)
Lemma format_go_plain kw (l r : string) :
  plain l = true ->
  format_go kw None (l ++ r)
  = (out <- format_go kw None r ;; Ok (l ++ out)).
Proof.
  induction l as [|c l IH]; intros Hl.
  - simpl. now rewrite bind_ret.
  - simpl in Hl. apply andb_prop in Hl as [Hc Hl].
    apply andb_prop in Hc as [Ho Hc].
    apply negb_true_iff in Ho, Hc.
    change (String c l ++ r) with (String c (l ++ r)).
    cbn [format_go]. rewrite Ho, Hc, (IH Hl).
    now destruct (format_go kw None r).
Qed.

(** A field name is read up to its closing brace and looked up. *)
Lemma format_go_name kw (acc k r : string) :
  plain k = true ->
  format_go kw (Some acc) (k ++ String "}" r)
  = (v <- dict_item (acc ++ k) kw ;;
     out <- format_go kw None r ;;
     Ok (py_str v ++ out)).
Proof.
  revert acc.
  induction k as [|c k IH]; intros acc Hk.
  - simpl. now rewrite append_nil_r.
  - simpl in Hk. apply andb_prop in Hk as [Hc Hk].
    apply andb_prop in Hc as [Ho Hc].
    apply negb_true_iff in Ho, Hc.
    change (String c k ++ String "}" r) with (String c (k ++ String "}" r)).
    cbn [format_go]. rewrite Ho, Hc, (IH _ Hk).
    rewrite append_assoc. reflexivity.
Qed.

Lemma format_go_open kw (k r : string) :
  plain k = true ->
  format_go kw None (String "{" (k ++ String "}" r))
  = format_go kw (Some EmptyString) (k ++ String "}" r).
Proof.
  intros Hk. destruct k as [|c k]; [reflexivity|].
  simpl in Hk. apply andb_prop in Hk as [Hc _].
  apply andb_prop in Hc as [Ho _]. apply negb_true_iff in Ho.
  change (String c k ++ String "}" r) with (String c (k ++ String "}" r)).
  cbn [format_go]. change ("{" =? "{")%char with true. cbv iota.
  now rewrite Ho.
Qed.

(** Literal text followed by one replacement field. *)
Lemma format_go_field kw (l k r : string) (v : PyVal) :
  plain l = true ->
  plain k = true ->
  dict_get k kw = Some v ->
  format_go kw None (l ++ String "{" (k ++ String "}" r))
  = (out <- format_go kw None r ;; Ok (l ++ py_str v ++ out)).
Proof.
  intros Hl Hk Hget.
  rewrite (format_go_plain kw l _ Hl), (format_go_open kw k r Hk).
  rewrite (format_go_name kw EmptyString k r Hk).
  simpl. unfold dict_item. rewrite Hget. simpl.
  now destruct (format_go kw None r).
Qed.

Lemma add_fields_spec (end_url : string) (parameters : dict PyVal) :
  add_fields end_url parameters
  = end_url ++ fields_template (filter (nonempty is_empty_str) parameters).
Proof.
  unfold add_fields. revert end_url.
  induction parameters as [|[k v] ps IH]; intros end_url; simpl.
  - now rewrite append_nil_r.
  - rewrite IH. unfold nonempty at 2. simpl.
    destruct (is_empty_str v); simpl; [reflexivity|].
    repeat first [rewrite append_assoc | progress simpl]. reflexivity.
Qed.

(** Formatting the appended fields gives the query string. *)
Lemma format_fields_template kw (items : dict PyVal) :
  (forall k v, In (k, v) items -> plain k = true /\ dict_get k kw = Some v) ->
  format_go kw None (fields_template items) = Ok (render_query items).
Proof.
  induction items as [|[k v] items IH]; intros Hall; [reflexivity|].
  destruct (Hall k v (or_introl eq_refl)) as [Hk Hget].
  assert (IH' : format_go kw None (fields_template items)
                = Ok (render_query items)).
  { apply IH. intros k' v' Hin. apply Hall. now right. }
  cbn [fields_template render_query].
  replace ("&" ++ k ++ "={" ++ k ++ "}" ++ fields_template items)
    with (("&" ++ k ++ "=") ++ String "{" (k ++ String "}" (fields_template items))).
  2:{ repeat first [rewrite append_assoc | progress simpl]. reflexivity. }
  rewrite (format_go_field kw _ k _ v); [| |assumption|assumption].
  - rewrite IH'. repeat first [rewrite append_assoc | progress simpl]. reflexivity.
  - change ("&" ++ k ++ "=") with (String "&" (k ++ "=")).
    simpl. now rewrite plain_app, Hk.
Qed.

(** ** Well-formed dictionaries *)

Section WfFacts.

Context {V : Type}.
Implicit Types (d : dict V) (k : string) (v : V).

Lemma wf_nil : wf (@nil (string * V)).
Proof. split; constructor. Qed.

Lemma wf_set k v d : plain k = true -> wf d -> wf (dict_set k v d).
Proof.
  intros Hk [Hnd Hall]. split.
  - now apply NoDup_keys_set.
  - apply Forall_forall. intros x Hin.
    apply in_keys_set in Hin as [->|Hin]; [assumption|].
    rewrite Forall_forall in Hall. auto.
Qed.

Lemma wf_filter (f : string * V -> bool) d : wf d -> wf (filter f d).
Proof.
  intros [Hnd Hall]. split.
  - now apply NoDup_keys_filter.
  - apply Forall_forall. intros x Hin.
    apply keys_filter_incl in Hin.
    rewrite Forall_forall in Hall. auto.
Qed.

Lemma wf_if (c : bool) d d' : wf d -> wf d' -> wf (if c then d else d').
Proof. now destruct c. Qed.

End WfFacts.

Ltac wf_chain :=
  repeat first
    [ apply wf_nil
    | apply wf_if
    | apply wf_set; [reflexivity|] ].

(** The items that [url] renders are items of the parameters. *)
Lemma query_items_in (p : dict PyVal) k v :
  wf p -> In (k, v) (query_items p) ->
  plain k = true /\ dict_get k p = Some v.
Proof.
  intros [Hnd Hall] Hin.
  unfold query_items, without_keys in Hin.
  apply filter_In in Hin as [Hin _]. apply filter_In in Hin as [Hin _].
  split.
  - rewrite Forall_forall in Hall. apply Hall.
    change k with (fst (k, v)). now apply in_map.
  - now apply In_dict_get.
Qed.

Lemma dict_get_query_items (p : dict PyVal) k :
  wf p ->
  dict_get k (query_items p)
  = if existsb (String.eqb k) path_keys then None
    else match dict_get k p with
         | Some v => if is_empty_str v then None else Some v
         | None => None
         end.
Proof.
  intros [Hnd _]. unfold query_items.
  rewrite dict_get_nonempty by now apply NoDup_keys_filter.
  rewrite dict_get_without_keys.
  now destruct (existsb (String.eqb k) path_keys).
Qed.

(** ** The mention list *)

Module MentionsFacts.
Import FetchAllMentionsAPI.

Lemma params_filled_wf self n : wf (params_filled self n).
Proof. unfold params_filled. wf_chain. Qed.

(** [params] is the filled dictionary without its empty strings; it raises
    only when [int(self.limit)] does. *)
Lemma params_spec self n :
  py_int (limit self) = Ok n ->
  params self = Ok (filter (nonempty is_empty_str) (params_filled self n)).
Proof.
  intros Hn. unfold params. rewrite Hn. simpl.
  apply del_empty_loop_spec. apply params_filled_wf.
Qed.

Lemma params_wf self p : params self = Ok p -> wf p.
Proof.
  unfold params. destruct (py_int (limit self)) as [n|e]; [|discriminate].
  simpl. unfold del_empty.
  rewrite del_empty_loop_spec by apply params_filled_wf.
  intros [= <-]. apply wf_filter, params_filled_wf.
Qed.

Lemma params_get self n k :
  py_int (limit self) = Ok n ->
  exists p, params self = Ok p /\
    dict_get k p
    = match dict_get k (params_filled self n) with
      | Some v => if is_empty_str v then None else Some v
      | None => None
      end.
Proof.
  intros Hn. eexists. split; [exact (params_spec self n Hn)|].
  apply dict_get_nonempty, params_filled_wf.
Qed.

(** *** The filled dictionary, key by key *)

Ltac lookup_cases self n :=
  unfold params_filled;
  destruct (truthy (since_id self)), (truthy (unread self)),
    (truthy (favorite self)
     && (eq_str (folder self) "inbox" || eq_str (folder self) "archive")),
    (n >? 1000), (n <? 1);
  reflexivity.

Lemma filled_account_id self n :
  dict_get "account_id" (params_filled self n) = Some (VStr (account_id self)).
Proof. lookup_cases self n. Qed.

Lemma filled_alert_id self n :
  dict_get "alert_id" (params_filled self n) = Some (VStr (alert_id self)).
Proof. lookup_cases self n. Qed.

Lemma filled_since_id self n :
  dict_get "since_id" (params_filled self n)
  = if truthy (since_id self) then Some (since_id self) else None.
Proof. lookup_cases self n. Qed.

Lemma filled_before_date self n :
  dict_get "before_date" (params_filled self n)
  = if truthy (since_id self) then None
    else Some (or_empty (before_date self) (before_date self)).
Proof. lookup_cases self n. Qed.

Lemma filled_not_before_date self n :
  dict_get "not_before_date" (params_filled self n)
  = if truthy (since_id self) then None
    else Some (or_empty (before_date self) (not_before_date self)).
Proof. lookup_cases self n. Qed.

Lemma filled_cursor self n :
  dict_get "cursor" (params_filled self n)
  = if truthy (since_id self) then None
    else Some (or_empty (cursor self) (cursor self)).
Proof. lookup_cases self n. Qed.

Lemma filled_unread self n :
  dict_get "unread" (params_filled self n)
  = if truthy (unread self) then Some (unread self) else None.
Proof. lookup_cases self n. Qed.

Lemma filled_favorite self n :
  dict_get "favorite" (params_filled self n)
  = if truthy (unread self) then None
    else if truthy (favorite self)
            && (eq_str (folder self) "inbox" || eq_str (folder self) "archive")
    then Some (favorite self)
    else None.
Proof. lookup_cases self n. Qed.

Lemma filled_folder self n :
  dict_get "folder" (params_filled self n)
  = if truthy (unread self) then None
    else if truthy (favorite self)
            && (eq_str (folder self) "inbox" || eq_str (folder self) "archive")
    then Some (folder self)
    else Some (or_empty (folder self) (folder self)).
Proof. lookup_cases self n. Qed.

Lemma filled_q self n :
  dict_get "q" (params_filled self n)
  = if truthy (unread self) then None
    else Some (or_empty (q self) (q self)).
Proof. lookup_cases self n. Qed.

Lemma filled_tone self n :
  dict_get "tone" (params_filled self n)
  = if truthy (unread self) then None
    else Some (or_empty (tone self) (tone self)).
Proof. lookup_cases self n. Qed.

Lemma filled_limit self n :
  dict_get "limit" (params_filled self n)
  = Some (if n >? 1000 then VStr "1000"
          else if n <? 1 then VStr ""
          else limit self).
Proof. lookup_cases self n. Qed.

Lemma filled_source self n :
  dict_get "source" (params_filled self n)
  = Some (or_empty (source self) (source self)).
Proof. lookup_cases self n. Qed.

Lemma filled_countries self n :
  dict_get "countries" (params_filled self n)
  = Some (or_empty (countries self) (countries self)).
Proof. lookup_cases self n. Qed.

Lemma filled_include_children self n :
  dict_get "include_children" (params_filled self n)
  = Some (or_empty (include_children self) (include_children self)).
Proof. lookup_cases self n. Qed.

Lemma filled_sort self n :
  dict_get "sort" (params_filled self n)
  = Some (or_empty (sort self) (sort self)).
Proof. lookup_cases self n. Qed.

Lemma filled_languages self n :
  dict_get "languages" (params_filled self n)
  = Some (or_empty (languages self) (languages self)).
Proof. lookup_cases self n. Qed.

Lemma filled_timezone self n :
  dict_get "timezone" (params_filled self n)
  = Some (or_empty (timezone self) (timezone self)).
Proof. lookup_cases self n. Qed.

Lemma params_lookup self n p k :
  py_int (limit self) = Ok n ->
  params self = Ok p ->
  dict_get k p
  = match dict_get k (params_filled self n) with
    | Some v => if is_empty_str v then None else Some v
    | None => None
    end.
Proof.
  intros Hn Hp. destruct (params_get self n k Hn) as [p' [Hp' Hg]].
  congruence.
Qed.

(** The identifiers stay in [params] unless they are empty strings. *)
Lemma params_account_id self p :
  params self = Ok p ->
  account_id self <> "" ->
  dict_get "account_id" p = Some (VStr (account_id self)).
Proof.
  intros Hp Hne.
  destruct (py_int (limit self)) as [n|e] eqn:Hn;
    [|unfold params in Hp; rewrite Hn in Hp; discriminate].
  rewrite (params_lookup self n p _ Hn Hp), filled_account_id. simpl.
  now apply String.eqb_neq in Hne as ->.
Qed.

Lemma params_alert_id self p :
  params self = Ok p ->
  alert_id self <> "" ->
  dict_get "alert_id" p = Some (VStr (alert_id self)).
Proof.
  intros Hp Hne.
  destruct (py_int (limit self)) as [n|e] eqn:Hn;
    [|unfold params in Hp; rewrite Hn in Hp; discriminate].
  rewrite (params_lookup self n p _ Hn Hp), filled_alert_id. simpl.
  now apply String.eqb_neq in Hne as ->.
Qed.

(** The url is the path with the identifiers, then one query field per
    parameter that is not an identifier, in the order of [params]. *)
Lemma url_spec self p :
  params self = Ok p ->
  account_id self <> "" ->
  alert_id self <> "" ->
  url self = Ok (mentions_url (account_id self) (alert_id self) p).
Proof.
  intros Hp Hacc Hal. unfold mentions_url.
  pose proof (params_wf self p Hp) as Hwf.
  unfold url. rewrite Hp. cbn [bind].
  rewrite add_fields_spec. fold (query_items p). unfold format.
  change ("/accounts/{account_id}/alerts/{alert_id}/mentions?"
            ++ fields_template (query_items p))
    with ("/accounts/" ++ String "{" ("account_id" ++ String "}"
            ("/alerts/" ++ String "{" ("alert_id" ++ String "}"
               ("/mentions?" ++ fields_template (query_items p)))))).
  rewrite (format_go_field p "/accounts/" "account_id" _ _ eq_refl eq_refl
             (params_account_id self p Hp Hacc)).
  rewrite (format_go_field p "/alerts/" "alert_id" _ _ eq_refl eq_refl
             (params_alert_id self p Hp Hal)).
  rewrite (format_go_plain p "/mentions?" _ eq_refl).
  rewrite format_fields_template
    by (intros k v Hin; now apply query_items_in).
  cbn [bind py_str]. reflexivity.
Qed.

(** What [__init__] stores. *)
Lemma init_fields tok acc al kw self :
  __init__ tok acc al kw = Ok self ->
  access_token self = tok /\ account_id self = acc /\ alert_id self = al
  /\ limit self = match kw_limit kw with Some v => v | None => VStr "20" end
  /\ since_id self = of_opt_str (kw_since_id kw)
  /\ opt_date (kw_before_date kw) = Ok (before_date self)
  /\ opt_date (kw_not_before_date kw) = Ok (not_before_date self)
  /\ source self = of_opt_str (kw_source kw)
  /\ unread self = opt_boolean (kw_unread kw)
  /\ favorite self = opt_boolean (kw_favorite kw)
  /\ folder self = of_opt_str (kw_folder kw)
  /\ opt_tone (kw_tone kw) = Ok (tone self)
  /\ countries self = of_opt_str (kw_countries kw)
  /\ include_children self = opt_boolean (kw_include_children kw)
  /\ sort self = of_opt_str (kw_sort kw)
  /\ languages self = of_opt_str (kw_languages kw)
  /\ timezone self = of_opt_str (kw_timezone kw)
  /\ q self = of_opt_str (kw_q kw)
  /\ cursor self = of_opt_str (kw_cursor kw).
Proof.
  unfold __init__.
  destruct (opt_date (kw_before_date kw)) as [bd|e]; [|discriminate].
  destruct (opt_date (kw_not_before_date kw)) as [nbd|e]; [|discriminate].
  destruct (opt_tone (kw_tone kw)) as [tn|e]; [|discriminate].
  cbn [bind]. intros [= <-]. cbn. repeat split; reflexivity.
Qed.

Lemma truthy_of_opt_str s : s <> "" -> truthy (of_opt_str (Some s)) = true.
Proof.
  intros Hne. simpl. now apply String.eqb_neq in Hne as ->.
Qed.

Lemma truthy_opt_boolean b : truthy (opt_boolean (Some b)) = true.
Proof. now destruct b. Qed.

End MentionsFacts.

(** ** The claims on the mention list *)

Section MentionListClaims.
Import FetchAllMentionsAPI MentionsFacts.

(** The parameters of a build whose limit is an integer, with the lookup
    equation of every key. *)
Lemma built_params self n :
  py_int (limit self) = Ok n ->
  exists p,
    params self = Ok p /\ wf p
    /\ forall k,
         dict_get k p
         = match dict_get k (params_filled self n) with
           | Some v => if is_empty_str v then None else Some v
           | None => None
           end.
Proof.
  intros Hn. pose proof (params_spec self n Hn) as Hp.
  eexists. split; [exact Hp|]. split; [exact (params_wf _ _ Hp)|].
  intros k. exact (params_lookup self n _ k Hn Hp).
Qed.

(** Lookups among the query fields, for keys that are not identifiers. *)
Ltac query_lookup Hwf :=
  rewrite !dict_get_query_items by exact Hwf;
  simpl (existsb _ _).

(** C2. A mention list built with a non-empty [since_id] has [since_id] in
    its parameters and among the query fields of its url, and neither
    [before_date], [not_before_date] nor [cursor], whatever was passed for
    those. *)
Theorem since_id_excludes_dates_and_cursor tok acc al kw self s n :
  __init__ tok acc al kw = Ok self ->
  kw_since_id kw = Some s ->
  s <> "" ->
  py_int (limit self) = Ok n ->
  acc <> "" ->
  al <> "" ->
  exists p,
    params self = Ok p
    /\ url self = Ok (mentions_url acc al p)
    /\ dict_get "since_id" p = Some (VStr s)
    /\ dict_get "before_date" p = None
    /\ dict_get "not_before_date" p = None
    /\ dict_get "cursor" p = None
    /\ dict_get "since_id" (query_items p) = Some (VStr s)
    /\ dict_get "before_date" (query_items p) = None
    /\ dict_get "not_before_date" (query_items p) = None
    /\ dict_get "cursor" (query_items p) = None.
Proof.
  intros Hinit Hkw Hs Hn Hacc Hal.
  destruct (init_fields _ _ _ _ _ Hinit)
    as (_ & Ea & Eal & _ & Esince & _).
  rewrite Hkw in Esince.
  pose proof (truthy_of_opt_str s Hs) as Ht. rewrite <- Esince in Ht.
  destruct (built_params self n Hn) as (p & Hp & Hwf & Hget).
  exists p. split; [exact Hp|]. split.
  { rewrite <- Ea, <- Eal.
    apply url_spec; [assumption|now rewrite Ea|now rewrite Eal]. }
  query_lookup Hwf. rewrite !Hget.
  rewrite filled_since_id, filled_before_date, filled_not_before_date,
    filled_cursor, Ht, Esince.
  assert (He : (s =? "")%string = false) by now apply String.eqb_neq.
  simpl. rewrite He. simpl. rewrite ?He.
  repeat split; reflexivity.
Qed.

(** C3. Without an unread filter: a supplied favorite together with folder
    inbox or archive puts both in the parameters; with any other non-empty
    folder the favorite is left out and the folder is there alone; without
    a folder neither is there. *)
Theorem favorite_needs_inbox_or_archive tok acc al kw self n :
  __init__ tok acc al kw = Ok self ->
  kw_unread kw = None ->
  py_int (limit self) = Ok n ->
  exists p,
    params self = Ok p
    /\ (forall b f,
          kw_favorite kw = Some b ->
          kw_folder kw = Some f ->
          f = "inbox" \/ f = "archive" ->
          dict_get "favorite" p = Some (VStr (utils.transform_boolean b))
          /\ dict_get "folder" p = Some (VStr f))
    /\ (forall f,
          kw_folder kw = Some f ->
          f <> "" -> f <> "inbox" -> f <> "archive" ->
          dict_get "favorite" p = None
          /\ dict_get "folder" p = Some (VStr f))
    /\ (kw_folder kw = None ->
          dict_get "favorite" p = None /\ dict_get "folder" p = None).
Proof.
  intros Hinit Hun Hn.
  destruct (init_fields _ _ _ _ _ Hinit)
    as (_ & _ & _ & _ & _ & _ & _ & _ & Eun & Efav & Efol & _).
  rewrite Hun in Eun.
  destruct (built_params self n Hn) as (p & Hp & Hwf & Hget).
  exists p. split; [exact Hp|].
  rewrite !Hget, filled_favorite, filled_folder, Eun, Efav, Efol.
  cbn [truthy opt_boolean].
  split; [|split].
  - intros b f -> -> Hf.
    rewrite truthy_opt_boolean.
    destruct Hf as [-> | ->]; destruct b; split; reflexivity.
  - intros f -> Hne Hin Har.
    apply String.eqb_neq in Hne, Hin, Har.
    unfold or_empty. simpl. rewrite Hin, Har, Hne, andb_false_r. simpl.
    rewrite Hne. split; reflexivity.
  - intros ->. simpl. rewrite andb_false_r. split; reflexivity.
Qed.

(** C9. A mention list built without a [limit] argument has the limit
    [20]: the attribute is the string 20 and so is the [limit] parameter,
    which is one of the query fields. *)
Theorem limit_defaults_to_20 tok acc al kw self :
  __init__ tok acc al kw = Ok self ->
  kw_limit kw = None ->
  limit self = VStr "20"
  /\ exists p,
       params self = Ok p
       /\ dict_get "limit" p = Some (VStr "20")
       /\ dict_get "limit" (query_items p) = Some (VStr "20")
       /\ (acc <> "" -> al <> "" -> url self = Ok (mentions_url acc al p)).
Proof.
  intros Hinit Hkw.
  destruct (init_fields _ _ _ _ _ Hinit) as (_ & Ea & Eal & Elim & _).
  rewrite Hkw in Elim. split; [exact Elim|].
  assert (Hn : py_int (limit self) = Ok 20) by now rewrite Elim.
  destruct (built_params self 20 Hn) as (p & Hp & Hwf & Hget).
  exists p. split; [exact Hp|].
  query_lookup Hwf. rewrite !Hget, filled_limit, Elim.
  split; [reflexivity|]. split; [reflexivity|].
  intros Hacc Hal. rewrite <- Ea, <- Eal.
  apply url_spec; [assumption|now rewrite Ea|now rewrite Eal].
Qed.

(** C10. An unread filter passed as a boolean, [False] as well as [True],
    is stored as its token and counts as present: the token is the
    [unread] parameter and query field, and [folder], [q], [tone] and
    [favorite] are left out. *)
Theorem unread_false_counts_as_present tok acc al kw self n b :
  __init__ tok acc al kw = Ok self ->
  kw_unread kw = Some b ->
  py_int (limit self) = Ok n ->
  unread self = VStr (if b then "true" else "false")
  /\ exists p,
       params self = Ok p
       /\ dict_get "unread" p = Some (VStr (if b then "true" else "false"))
       /\ dict_get "unread" (query_items p)
          = Some (VStr (if b then "true" else "false"))
       /\ dict_get "folder" p = None
       /\ dict_get "q" p = None
       /\ dict_get "tone" p = None
       /\ dict_get "favorite" p = None
       /\ dict_get "folder" (query_items p) = None
       /\ dict_get "q" (query_items p) = None
       /\ dict_get "tone" (query_items p) = None
       /\ (acc <> "" -> al <> "" -> url self = Ok (mentions_url acc al p)).
Proof.
  intros Hinit Hun Hn.
  destruct (init_fields _ _ _ _ _ Hinit)
    as (_ & Ea & Eal & _ & _ & _ & _ & _ & Eun & _).
  rewrite Hun in Eun. split; [exact Eun|].
  destruct (built_params self n Hn) as (p & Hp & Hwf & Hget).
  exists p. split; [exact Hp|].
  query_lookup Hwf.
  rewrite !Hget, filled_unread, filled_folder, filled_q, filled_tone,
    filled_favorite, Eun.
  assert (Hurl : acc <> "" -> al <> "" ->
                 url self = Ok (mentions_url acc al p)).
  { intros Hacc Hal. rewrite <- Ea, <- Eal.
    apply url_spec; [assumption|now rewrite Ea|now rewrite Eal]. }
  destruct b; repeat split; try reflexivity; exact Hurl.
Qed.

(** [int('')] raises. *)
Lemma py_int_not_empty v n : py_int v = Ok n -> is_empty_str v = false.
Proof.
  destruct v as [| |z|s]; try reflexivity.
  destruct s; [discriminate|reflexivity].
Qed.

(** The limit of the mention list: above 1000 it is the string 1000, below
    1 it is left out, otherwise it is the value as passed. *)
Lemma mentions_limit_clamp self n :
  py_int (limit self) = Ok n ->
  exists p,
    params self = Ok p
    /\ wf p
    /\ (n > 1000 ->
        dict_get "limit" p = Some (VStr "1000")
        /\ dict_get "limit" (query_items p) = Some (VStr "1000"))
    /\ (n < 1 ->
        dict_get "limit" p = None
        /\ dict_get "limit" (query_items p) = None)
    /\ (1 <= n <= 1000 ->
        dict_get "limit" p = Some (limit self)
        /\ dict_get "limit" (query_items p) = Some (limit self)).
Proof.
  intros Hn.
  destruct (built_params self n Hn) as (p & Hp & Hwf & Hget).
  exists p. split; [exact Hp|]. split; [exact Hwf|].
  query_lookup Hwf. rewrite !Hget, filled_limit.
  pose proof (py_int_not_empty _ _ Hn) as Hne.
  split; [|split]; intros Hr.
  - assert ((n >? 1000) = true) as -> by lia. split; reflexivity.
  - assert ((n >? 1000) = false) as -> by lia.
    assert ((n <? 1) = true) as -> by lia. split; reflexivity.
  - assert ((n >? 1000) = false) as -> by lia.
    assert ((n <? 1) = false) as -> by lia.
    rewrite Hne. rewrite Hne. split; reflexivity.
Qed.

End MentionListClaims.

(** ** The children of a mention *)

Module ChildrenFacts.
Import FetchMentionChildrenAPI.

(** The five parameters that are always set, and the limit when there is
    one. *)
Lemma children_params_cases self :
  let fixed :=
    [("access_token", VStr (access_token self));
     ("account_id", VStr (account_id self));
     ("alert_id", VStr (alert_id self));
     ("mention_id", VStr (mention_id self));
     ("before_date",
      if truthy (before_date self) then before_date self else VStr "")] in
  params self
  = if truthy (limit self) then
      n <- py_int (limit self) ;;
      Ok (fixed ++ [("limit",
                     if n >? 1000 then VStr "1000"
                     else if n <? 1 then VStr ""
                     else limit self)])%list
    else Ok fixed.
Proof.
  unfold params. cbn [dict_set String.eqb Ascii.eqb Bool.eqb app].
  destruct (truthy (limit self)); [|reflexivity].
  destruct (py_int (limit self)) as [n|e]; [|reflexivity].
  cbn [bind]. destruct (n >? 1000); [reflexivity|].
  destruct (n <? 1); reflexivity.
Qed.

Lemma children_params_wf self p : params self = Ok p -> wf p.
Proof.
  rewrite children_params_cases. cbv zeta.
  assert (Hk : forall ks : list string,
             Forall (fun k => plain k = true) ks
             <-> forallb plain ks = true).
  { intros ks. rewrite forallb_forall, Forall_forall. reflexivity. }
  destruct (truthy (limit self)).
  - destruct (py_int (limit self)) as [n|e]; [|discriminate].
    intros [= <-]. split.
    + unfold keys. cbn [map fst app].
      repeat (constructor; [cbn [In]; intuition discriminate|]).
      constructor.
    + apply Hk. reflexivity.
  - intros [= <-]. split.
    + unfold keys. cbn [map fst].
      repeat (constructor; [cbn [In]; intuition discriminate|]).
      constructor.
    + apply Hk. reflexivity.
Qed.

Lemma children_params_ids self p :
  params self = Ok p ->
  dict_get "account_id" p = Some (VStr (account_id self))
  /\ dict_get "alert_id" p = Some (VStr (alert_id self))
  /\ dict_get "mention_id" p = Some (VStr (mention_id self))
  /\ dict_get "before_date" p
     = Some (if truthy (before_date self) then before_date self else VStr "").
Proof.
  rewrite children_params_cases. cbv zeta.
  destruct (truthy (limit self)).
  - destruct (py_int (limit self)) as [n|e]; [|discriminate].
    intros [= <-]. repeat split; reflexivity.
  - intros [= <-]. repeat split; reflexivity.
Qed.

(** The url is the path with the identifiers, then one query field per
    non-empty parameter other than the three of [path_keys]: the mention
    identifier is among the query fields too. *)
Lemma children_url_spec self p :
  params self = Ok p ->
  url self
  = Ok (children_url (account_id self) (alert_id self) (mention_id self) p).
Proof.
  intros Hp. unfold children_url.
  pose proof (children_params_wf self p Hp) as Hwf.
  destruct (children_params_ids self p Hp) as (Hacc & Hal & Hm & _).
  unfold url. rewrite Hp. cbn [bind].
  rewrite add_fields_spec. fold (query_items p). unfold format.
  change ("/accounts/{account_id}/alerts/{alert_id}/mentions/{mention_id}/children?"
            ++ fields_template (query_items p))
    with ("/accounts/" ++ String "{" ("account_id" ++ String "}"
            ("/alerts/" ++ String "{" ("alert_id" ++ String "}"
               ("/mentions/" ++ String "{" ("mention_id" ++ String "}"
                  ("/children?" ++ fields_template (query_items p)))))))).
  rewrite (format_go_field p "/accounts/" "account_id" _ _ eq_refl eq_refl Hacc).
  rewrite (format_go_field p "/alerts/" "alert_id" _ _ eq_refl eq_refl Hal).
  rewrite (format_go_field p "/mentions/" "mention_id" _ _ eq_refl eq_refl Hm).
  rewrite (format_go_plain p "/children?" _ eq_refl).
  rewrite format_fields_template
    by (intros k v Hin; now apply query_items_in).
  cbn [bind py_str]. reflexivity.
Qed.

End ChildrenFacts.

(** ** The limit of both listings *)

(** C1, as the code has it.  For a limit whose integer value is [n]: the
    mention list has the string 1000 when [n > 1000], no limit when
    [n < 1], and the value as passed otherwise.  The children of a mention
    behave alike for a truthy limit, except that below 1 the parameters
    keep the key [limit] with the empty string, which the url leaves out of
    the query; a falsy limit sets no key at all. *)
Theorem limit_is_clamped :
  (forall self n,
     py_int (FetchAllMentionsAPI.limit self) = Ok n ->
     exists p,
       FetchAllMentionsAPI.params self = Ok p
       /\ (FetchAllMentionsAPI.account_id self <> "" ->
           FetchAllMentionsAPI.alert_id self <> "" ->
           FetchAllMentionsAPI.url self
           = Ok (mentions_url (FetchAllMentionsAPI.account_id self)
                   (FetchAllMentionsAPI.alert_id self) p))
       /\ (n > 1000 ->
           dict_get "limit" p = Some (VStr "1000")
           /\ dict_get "limit" (query_items p) = Some (VStr "1000"))
       /\ (n < 1 ->
           dict_get "limit" p = None
           /\ dict_get "limit" (query_items p) = None)
       /\ (1 <= n <= 1000 ->
           dict_get "limit" p = Some (FetchAllMentionsAPI.limit self)
           /\ dict_get "limit" (query_items p)
              = Some (FetchAllMentionsAPI.limit self)))
  /\ (forall self n,
        truthy (FetchMentionChildrenAPI.limit self) = true ->
        py_int (FetchMentionChildrenAPI.limit self) = Ok n ->
        exists p,
          FetchMentionChildrenAPI.params self = Ok p
          /\ FetchMentionChildrenAPI.url self
             = Ok (children_url (FetchMentionChildrenAPI.account_id self)
                     (FetchMentionChildrenAPI.alert_id self)
                     (FetchMentionChildrenAPI.mention_id self) p)
          /\ (n > 1000 ->
              dict_get "limit" p = Some (VStr "1000")
              /\ dict_get "limit" (query_items p) = Some (VStr "1000"))
          /\ (n < 1 ->
              dict_get "limit" p = Some (VStr "")
              /\ dict_get "limit" (query_items p) = None)
          /\ (1 <= n <= 1000 ->
              dict_get "limit" p = Some (FetchMentionChildrenAPI.limit self)
              /\ dict_get "limit" (query_items p)
                 = Some (FetchMentionChildrenAPI.limit self)))
  /\ (forall self,
        truthy (FetchMentionChildrenAPI.limit self) = false ->
        exists p,
          FetchMentionChildrenAPI.params self = Ok p
          /\ FetchMentionChildrenAPI.url self
             = Ok (children_url (FetchMentionChildrenAPI.account_id self)
                     (FetchMentionChildrenAPI.alert_id self)
                     (FetchMentionChildrenAPI.mention_id self) p)
          /\ dict_get "limit" p = None
          /\ dict_get "limit" (query_items p) = None).
Proof.
  split; [|split].
  - intros self n Hn.
    destruct (mentions_limit_clamp self n Hn) as (p & Hp & _ & H).
    exists p. split; [exact Hp|]. split; [|exact H].
    intros Hacc Hal. now apply MentionsFacts.url_spec.
  - intros self n Ht Hn.
    pose proof (ChildrenFacts.children_params_cases self) as Hp. cbv zeta in Hp.
    rewrite Ht, Hn in Hp. cbn [bind] in Hp.
    eexists. split; [exact Hp|].
    split; [exact (ChildrenFacts.children_url_spec _ _ Hp)|].
    pose proof (ChildrenFacts.children_params_wf _ _ Hp) as Hwf.
    rewrite !dict_get_query_items by exact Hwf.
    pose proof (py_int_not_empty _ _ Hn) as Hne.
    cbn. split; [|split]; intros Hr.
    + assert ((n >? 1000) = true) as -> by lia. split; reflexivity.
    + assert ((n >? 1000) = false) as -> by lia.
      assert ((n <? 1) = true) as -> by lia. split; reflexivity.
    + assert ((n >? 1000) = false) as -> by lia.
      assert ((n <? 1) = false) as -> by lia.
      rewrite Hne. split; reflexivity.
  - intros self Ht.
    pose proof (ChildrenFacts.children_params_cases self) as Hp. cbv zeta in Hp.
    rewrite Ht in Hp.
    eexists. split; [exact Hp|].
    split; [exact (ChildrenFacts.children_url_spec _ _ Hp)|].
    pose proof (ChildrenFacts.children_params_wf _ _ Hp) as Hwf.
    rewrite !dict_get_query_items by exact Hwf.
    split; reflexivity.
Qed.

(** C1 as stated fails: a limit below 1 is a key of the parameters of the
    children listing, with the empty string as its value. *)
Lemma children_limit_below_1_is_a_key :
  exists self,
    children_limit_0 = Ok self
    /\ py_int (FetchMentionChildrenAPI.limit self) = Ok 0
    /\ FetchMentionChildrenAPI.params self
       = Ok [("access_token", VStr "T"); ("account_id", VStr "A");
             ("alert_id", VStr "B"); ("mention_id", VStr "M");
             ("before_date", VStr ""); ("limit", VStr "")]
    /\ (forall p, FetchMentionChildrenAPI.params self = Ok p ->
                  dict_get "limit" p <> None).
Proof.
  eexists. split; [reflexivity|]. split; [reflexivity|].
  split; [reflexivity|].
  intros p [= <-]. discriminate.
Qed.

(** ** Runs of the mention list *)

(** C4, on the code.  A mention list asked for with a well-formed
    [not_before_date] and nothing else: the date is accepted and stored,
    but [params] tests [before_date] where it sets [not_before_date], so
    the field is in neither the parameters nor the url. *)
Theorem not_before_date_alone_is_dropped :
  exists self,
    FetchAllMentionsAPI.__init__ "T" "A" "B" kw_not_before = Ok self
    /\ FetchAllMentionsAPI.not_before_date self
       = VStr "2018-11-25T12:00:00.000000+00:00"
    /\ FetchAllMentionsAPI.params self
       = Ok [("access_token", VStr "T"); ("account_id", VStr "A");
             ("alert_id", VStr "B"); ("limit", VStr "20")]
    /\ FetchAllMentionsAPI.url self
       = Ok "https://api.mention.net/api/accounts/A/alerts/B/mentions?&limit=20".
Proof.
  eexists. split; [reflexivity|]. repeat split; reflexivity.
Qed.

(** In general: without [before_date], no [not_before_date] reaches the
    parameters, whatever was passed for it. *)
Lemma not_before_date_needs_before_date tok acc al kw self n :
  FetchAllMentionsAPI.__init__ tok acc al kw = Ok self ->
  FetchAllMentionsAPI.kw_before_date kw = None ->
  py_int (FetchAllMentionsAPI.limit self) = Ok n ->
  exists p,
    FetchAllMentionsAPI.params self = Ok p
    /\ dict_get "not_before_date" p = None
    /\ dict_get "not_before_date" (query_items p) = None.
Proof.
  intros Hinit Hkw Hn.
  destruct (MentionsFacts.init_fields _ _ _ _ _ Hinit)
    as (_ & _ & _ & _ & _ & Ebd & _).
  rewrite Hkw in Ebd. injection Ebd as Ebd.
  destruct (built_params self n Hn) as (p & Hp & Hwf & Hget).
  exists p. split; [exact Hp|].
  rewrite dict_get_query_items by exact Hwf.
  rewrite !Hget, MentionsFacts.filled_not_before_date, <- Ebd.
  destruct (truthy (FetchAllMentionsAPI.since_id self)); split; reflexivity.
Qed.

(** The same slip the other way round: [before_date] alone puts the
    [None] of [not_before_date] in the parameters and in the url. *)
Lemma before_date_alone_adds_none :
  exists self,
    FetchAllMentionsAPI.__init__ "T" "A" "B" kw_before = Ok self
    /\ FetchAllMentionsAPI.params self
       = Ok [("access_token", VStr "T"); ("account_id", VStr "A");
             ("alert_id", VStr "B");
             ("before_date", VStr "2018-11-25T12:00:00.000000+00:00");
             ("not_before_date", VNone); ("limit", VStr "20")]
    /\ FetchAllMentionsAPI.url self
       = Ok ("https://api.mention.net/api/accounts/A/alerts/B/mentions?"
               ++ "&before_date=2018-11-25T12:00:00.000000+00:00"
               ++ "&not_before_date=None&limit=20").
Proof.
  eexists. split; [reflexivity|]. split; reflexivity.
Qed.

(** C6. The end-to-end example, with the limit 5000 as an integer or as a
    string: the path is [/accounts/A/alerts/B/mentions] under the base
    url, the query is [&favorite=true&folder=inbox&limit=1000], in the
    order in which [params] sets the keys, and it has no [before_date] and
    no [cursor]. *)
Theorem inbox_favorite_limit_5000 :
  inbox_run (VInt 5000) /\ inbox_run (VStr "5000").
Proof.
  split; do 3 eexists;
    (split; [reflexivity|]); (split; [reflexivity|]);
    (split; [reflexivity|]); (split; [reflexivity|]);
    repeat split; reflexivity.
Qed.

(** ** Validation at construction time *)

(** A malformed date or an unknown tone stops the construction of a
    mention list with [ValidationError]. *)
Lemma mentions_init_rejects tok acc al kw :
  (exists d, FetchAllMentionsAPI.kw_before_date kw = Some d
             /\ utils.parse_date d = None)
  \/ (exists d, FetchAllMentionsAPI.kw_not_before_date kw = Some d
                /\ utils.parse_date d = None)
  \/ (exists x, FetchAllMentionsAPI.kw_tone kw = Some x
                /\ utils.transform_tone x = Raise ValidationError) ->
  FetchAllMentionsAPI.__init__ tok acc al kw = Raise ValidationError.
Proof.
  unfold FetchAllMentionsAPI.__init__, opt_date, opt_tone, utils.transform_date.
  intros [(d & -> & ->) | [(d & -> & ->) | (x & -> & ->)]].
  - reflexivity.
  - destruct (FetchAllMentionsAPI.kw_before_date kw) as [d'|]; [|reflexivity].
    now destruct (utils.parse_date d').
  - destruct (FetchAllMentionsAPI.kw_before_date kw) as [d'|];
      [destruct (utils.parse_date d')|];
      (destruct (FetchAllMentionsAPI.kw_not_before_date kw) as [d''|];
       [destruct (utils.parse_date d'')|]); reflexivity.
Qed.

(** A tone outside the vocabulary is a [ValidationError]. *)
Lemma transform_tone_rejects x :
  x <> "negative" -> x <> "neutral" -> x <> "positive" ->
  utils.transform_tone x = Raise ValidationError.
Proof.
  intros H1 H2 H3. unfold utils.transform_tone.
  apply String.eqb_neq in H1, H2, H3. now rewrite H1, H2, H3.
Qed.

(** C7, on the code.  [CurateAMentionAPI.__init__] passes [read], not
    [tone], to [utils.transform_tone]: with no [read], a tone outside the
    vocabulary is stored unchecked and goes into the body. *)
Theorem curate_accepts_unknown_tone :
  exists self,
    curate_happy = Ok self
    /\ CurateAMentionAPI.tone self = VStr "happy"
    /\ CurateAMentionAPI.data_dict self = Ok [("tone", jstr "happy")].
Proof.
  eexists. split; [reflexivity|]. split; reflexivity.
Qed.

(** ** The HTTP status *)

Lemma try_raise_for_status_ok (r : Response) : try_raise_for_status r = Ok tt.
Proof.
  unfold try_raise_for_status, raise_for_status.
  now destruct ((400 <=? status_code r) && (status_code r <? 600)).
Qed.

(** C8, as the code has it.  Every [query] catches the [HTTPError] of
    [raise_for_status] and drops it: whatever the status of the response,
    the result is its decoded body (its text for the creation of an
    alert). *)
Theorem http_error_is_swallowed (J : Type) (lib : Lib J) :
  (forall self r,
     session_request lib GET (AppDataAPI.access_token self)
       (AppDataAPI.url self) None = Ok r ->
     AppDataAPI.query lib self = response_json lib r)
  /\ (forall self u r,
        FetchAnAlertAPI.url self = Ok u ->
        session_request lib GET (FetchAnAlertAPI.access_token self) u None
        = Ok r ->
        FetchAnAlertAPI.query lib self = response_json lib r)
  /\ (forall self u body r,
        CreateAnAlertAPI.url self = Ok u ->
        CreateAnAlertAPI.data lib self = Ok body ->
        session_request lib POST (CreateAnAlertAPI.access_token self) u
          (Some body) = Ok r ->
        CreateAnAlertAPI.query lib self = Ok (text r))
  /\ (forall self u body r,
        UpdateAnAlertAPI.url self = Ok u ->
        UpdateAnAlertAPI.data lib self = Ok body ->
        session_request lib PUT (UpdateAnAlertAPI.access_token self) u
          (Some body) = Ok r ->
        UpdateAnAlertAPI.query lib self = response_json lib r)
  /\ (forall self u r,
        FetchAlertsAPI.url self = Ok u ->
        session_request lib GET (FetchAlertsAPI.access_token self) u None
        = Ok r ->
        FetchAlertsAPI.query lib self = response_json lib r)
  /\ (forall self u r,
        FetchAMentionAPI.url self = Ok u ->
        session_request lib GET (FetchAMentionAPI.access_token self) u None
        = Ok r ->
        FetchAMentionAPI.query lib self = response_json lib r)
  /\ (forall self u r,
        FetchAllMentionsAPI.url self = Ok u ->
        session_request lib GET (FetchAllMentionsAPI.access_token self) u None
        = Ok r ->
        FetchAllMentionsAPI.query lib self = response_json lib r)
  /\ (forall self u r,
        FetchMentionChildrenAPI.url self = Ok u ->
        session_request lib GET (FetchMentionChildrenAPI.access_token self) u
          None = Ok r ->
        FetchMentionChildrenAPI.query lib self = response_json lib r)
  /\ (forall self u body r,
        CurateAMentionAPI.url self = Ok u ->
        CurateAMentionAPI.data lib self = Ok body ->
        session_request lib PUT (CurateAMentionAPI.access_token self) u
          (Some body) = Ok r ->
        CurateAMentionAPI.query lib self = response_json lib r)
  /\ (forall self u r,
        MarkAllMentionsAsReadAPI.url self = Ok u ->
        session_request lib POST (MarkAllMentionsAsReadAPI.access_token self)
          u None = Ok r ->
        MarkAllMentionsAsReadAPI.query lib self = response_json lib r).
Proof.
  repeat split.
  - intros self r Hr. unfold AppDataAPI.query.
    rewrite Hr. cbn [bind]. rewrite try_raise_for_status_ok. cbn [bind].
    apply bind_ret.
  - intros self u r Hu Hr. unfold FetchAnAlertAPI.query.
    rewrite Hu. cbn [bind]. rewrite Hr. cbn [bind].
    rewrite try_raise_for_status_ok. cbn [bind]. apply bind_ret.
  - intros self u body r Hu Hb Hr. unfold CreateAnAlertAPI.query.
    rewrite Hu. cbn [bind]. rewrite Hb. cbn [bind]. rewrite Hr. cbn [bind].
    rewrite try_raise_for_status_ok. reflexivity.
  - intros self u body r Hu Hb Hr. unfold UpdateAnAlertAPI.query.
    rewrite Hu. cbn [bind]. rewrite Hb. cbn [bind]. rewrite Hr. cbn [bind].
    rewrite try_raise_for_status_ok. cbn [bind]. apply bind_ret.
  - intros self u r Hu Hr. unfold FetchAlertsAPI.query.
    rewrite Hu. cbn [bind]. rewrite Hr. cbn [bind].
    rewrite try_raise_for_status_ok. cbn [bind]. apply bind_ret.
  - intros self u r Hu Hr. unfold FetchAMentionAPI.query.
    rewrite Hu. cbn [bind]. rewrite Hr. cbn [bind].
    rewrite try_raise_for_status_ok. cbn [bind]. apply bind_ret.
  - intros self u r Hu Hr. unfold FetchAllMentionsAPI.query.
    rewrite Hu. cbn [bind]. rewrite Hr. cbn [bind].
    rewrite try_raise_for_status_ok. cbn [bind]. apply bind_ret.
  - intros self u r Hu Hr. unfold FetchMentionChildrenAPI.query.
    rewrite Hu. cbn [bind]. rewrite Hr. cbn [bind].
    rewrite try_raise_for_status_ok. cbn [bind]. apply bind_ret.
  - intros self u body r Hu Hb Hr. unfold CurateAMentionAPI.query.
    rewrite Hu. cbn [bind]. rewrite Hb. cbn [bind]. rewrite Hr. cbn [bind].
    rewrite try_raise_for_status_ok. cbn [bind]. apply bind_ret.
  - intros self u r Hu Hr. unfold MarkAllMentionsAsReadAPI.query.
    rewrite Hu. cbn [bind]. rewrite Hr. cbn [bind].
    rewrite try_raise_for_status_ok. cbn [bind]. apply bind_ret.
Qed.

(** C8 as stated fails: on a 404, for which [raise_for_status] raises,
    [query] returns the body of the error as its result. *)
Lemma query_returns_body_of_404 :
  raise_for_status {| status_code := 404; text := "not found" |}
  = Raise HTTPError
  /\ AppDataAPI.query lib_404 (AppDataAPI.__init__ "T") = Ok "not found"
  /\ (self <- FetchAllMentionsAPI.__init__ "T" "A" "B"
                FetchAllMentionsAPI.defaults ;;
      FetchAllMentionsAPI.query lib_404 self) = Ok "not found".
Proof. repeat split; reflexivity. Qed.

(** ** Absent fields *)

Ltac nodup_keys :=
  unfold keys; cbn [map fst];
  repeat (constructor; [cbn [In]; intuition discriminate|]);
  constructor.

(** On a dictionary with distinct keys the deleting loop of [data] returns,
    and a key is in the result when its value was not the empty string. *)
Lemma jdel_empty_get (d : dict Json) :
  NoDup (keys d) ->
  exists d',
    jdel_empty d = Ok d'
    /\ forall k,
         dict_get k d'
         = match dict_get k d with
           | Some v => if jis_empty_str v then None else Some v
           | None => None
           end.
Proof.
  intros Hnd. eexists. split.
  - exact (del_empty_loop_spec jis_empty_str d Hnd).
  - intros k. now apply dict_get_nonempty.
Qed.

Lemma query_items_none (p : dict PyVal) k :
  wf p -> dict_get k p = None -> dict_get k (query_items p) = None.
Proof.
  intros Hwf Hk. rewrite dict_get_query_items by exact Hwf. rewrite Hk.
  now destruct (existsb (String.eqb k) path_keys).
Qed.

(** The optional fields of the body that creates an alert. *)
Lemma create_absent_fields tok acc name queryd languages
    countries sources blocked_sites noise_detection reviews_pages :
  exists d,
    CreateAnAlertAPI.data_dict
      (CreateAnAlertAPI.__init__ tok acc name queryd languages countries
         sources blocked_sites noise_detection reviews_pages) = Ok d
    /\ (countries = None -> dict_get "countries" d = None)
    /\ (sources = None -> dict_get "sources" d = None)
    /\ (blocked_sites = None -> dict_get "blocked_sites" d = None)
    /\ (noise_detection = None -> dict_get "noise_detection" d = None)
    /\ (reviews_pages = None -> dict_get "reviews_pages" d = None).
Proof.
  unfold CreateAnAlertAPI.data_dict.
  cbn [dict_set String.eqb Ascii.eqb Bool.eqb].
  match goal with
  | |- exists d, jdel_empty ?c = Ok d /\ _ =>
      destruct (jdel_empty_get c) as (d & Hd & Hget); [nodup_keys|]
  end.
  exists d. split; [exact Hd|].
  rewrite !Hget. cbn [dict_get String.eqb Ascii.eqb Bool.eqb].
  repeat split; intros ->; reflexivity.
Qed.

(** The optional fields of the body that updates an alert. *)
Lemma update_absent_fields tok acc al name queryd languages
    countries sources blocked_sites noise_detection reviews_pages :
  exists d,
    UpdateAnAlertAPI.data_dict
      (UpdateAnAlertAPI.__init__ tok acc al name queryd languages countries
         sources blocked_sites noise_detection reviews_pages) = Ok d
    /\ (countries = None -> dict_get "countries" d = None)
    /\ (sources = None -> dict_get "sources" d = None)
    /\ (blocked_sites = None -> dict_get "blocked_sites" d = None)
    /\ (noise_detection = None -> dict_get "noise_detection" d = None)
    /\ (reviews_pages = None -> dict_get "reviews_pages" d = None).
Proof.
  unfold UpdateAnAlertAPI.data_dict.
  cbn [dict_set String.eqb Ascii.eqb Bool.eqb].
  match goal with
  | |- exists d, jdel_empty ?c = Ok d /\ _ =>
      destruct (jdel_empty_get c) as (d & Hd & Hget); [nodup_keys|]
  end.
  exists d. split; [exact Hd|].
  rewrite !Hget. cbn [dict_get String.eqb Ascii.eqb Bool.eqb].
  repeat split; intros ->; reflexivity.
Qed.

(** The fields of the body that curates a mention.  The stored tone is the
    transformed [read] when there is one, so the tone is followed only
    without [read]. *)
Lemma curate_absent_fields tok acc al mid favorite trashed read tags
    folder tone self :
  CurateAMentionAPI.__init__ tok acc al mid favorite trashed read tags
    folder tone = Ok self ->
  exists d,
    CurateAMentionAPI.data_dict self = Ok d
    /\ (favorite = None -> dict_get "favorite" d = None)
    /\ (trashed = None -> dict_get "trashed" d = None)
    /\ (read = None -> dict_get "read" d = None)
    /\ (tags = None -> dict_get "tags" d = None)
    /\ (folder = None -> dict_get "folder" d = None)
    /\ (read = None -> tone = None -> dict_get "tone" d = None).
Proof.
  intros Hinit.
  unfold CurateAMentionAPI.data_dict.
  cbn [dict_set String.eqb Ascii.eqb Bool.eqb].
  match goal with
  | |- exists d, jdel_empty ?c = Ok d /\ _ =>
      destruct (jdel_empty_get c) as (d & Hd & Hget); [nodup_keys|]
  end.
  exists d. split; [exact Hd|].
  rewrite !Hget. cbn [dict_get String.eqb Ascii.eqb Bool.eqb].
  unfold CurateAMentionAPI.__init__ in Hinit.
  destruct read as [r|].
  - destruct (utils.transform_tone r) as [t|e]; [|discriminate].
    cbn [bind] in Hinit. injection Hinit as <-. cbn.
    repeat split; intros; try discriminate; subst; reflexivity.
  - cbn [bind] in Hinit. injection Hinit as <-. cbn.
    repeat split; intros; subst; reflexivity.
Qed.

(** The optional arguments of the mention list, all but [not_before_date]
    and [limit]. *)
Lemma mentions_absent_fields tok acc al kw self n :
  FetchAllMentionsAPI.__init__ tok acc al kw = Ok self ->
  py_int (FetchAllMentionsAPI.limit self) = Ok n ->
  exists p,
    FetchAllMentionsAPI.params self = Ok p
    /\ (acc <> "" -> al <> "" ->
        FetchAllMentionsAPI.url self = Ok (mentions_url acc al p))
    /\ (forall k, dict_get k p = None -> dict_get k (query_items p) = None)
    /\ (FetchAllMentionsAPI.kw_since_id kw = None ->
        dict_get "since_id" p = None)
    /\ (FetchAllMentionsAPI.kw_before_date kw = None ->
        dict_get "before_date" p = None)
    /\ (FetchAllMentionsAPI.kw_cursor kw = None ->
        dict_get "cursor" p = None)
    /\ (FetchAllMentionsAPI.kw_unread kw = None ->
        dict_get "unread" p = None)
    /\ (FetchAllMentionsAPI.kw_favorite kw = None ->
        dict_get "favorite" p = None)
    /\ (FetchAllMentionsAPI.kw_folder kw = None ->
        dict_get "folder" p = None)
    /\ (FetchAllMentionsAPI.kw_q kw = None -> dict_get "q" p = None)
    /\ (FetchAllMentionsAPI.kw_tone kw = None -> dict_get "tone" p = None)
    /\ (FetchAllMentionsAPI.kw_source kw = None ->
        dict_get "source" p = None)
    /\ (FetchAllMentionsAPI.kw_countries kw = None ->
        dict_get "countries" p = None)
    /\ (FetchAllMentionsAPI.kw_include_children kw = None ->
        dict_get "include_children" p = None)
    /\ (FetchAllMentionsAPI.kw_sort kw = None -> dict_get "sort" p = None)
    /\ (FetchAllMentionsAPI.kw_languages kw = None ->
        dict_get "languages" p = None)
    /\ (FetchAllMentionsAPI.kw_timezone kw = None ->
        dict_get "timezone" p = None).
Proof.
  intros Hinit Hn.
  destruct (MentionsFacts.init_fields _ _ _ _ _ Hinit)
    as (_ & Ea & Eal & _ & Esince & Ebd & _ & Esrc & Eun & Efav & Efol
        & Etone & Ecn & Eic & Esort & Elang & Etz & Eq & Ecur).
  destruct (built_params self n Hn) as (p & Hp & Hwf & Hget).
  exists p. split; [exact Hp|].
  split.
  { intros Hacc Hal. rewrite <- Ea, <- Eal.
    apply MentionsFacts.url_spec; [assumption|now rewrite Ea|now rewrite Eal]. }
  split; [intros k; now apply query_items_none|].
  rewrite !Hget.
  rewrite MentionsFacts.filled_since_id, MentionsFacts.filled_before_date,
    MentionsFacts.filled_cursor, MentionsFacts.filled_unread,
    MentionsFacts.filled_favorite, MentionsFacts.filled_folder,
    MentionsFacts.filled_q, MentionsFacts.filled_tone,
    MentionsFacts.filled_source, MentionsFacts.filled_countries,
    MentionsFacts.filled_include_children, MentionsFacts.filled_sort,
    MentionsFacts.filled_languages, MentionsFacts.filled_timezone.
  repeat split; intros Hk; rewrite Hk in *.
  - now rewrite Esince.
  - injection Ebd as <-.
    now destruct (truthy (FetchAllMentionsAPI.since_id self)).
  - rewrite Ecur.
    now destruct (truthy (FetchAllMentionsAPI.since_id self)).
  - now rewrite Eun.
  - rewrite Efav. cbn.
    now destruct (truthy (FetchAllMentionsAPI.unread self)).
  - rewrite Efol. cbn. rewrite andb_false_r.
    now destruct (truthy (FetchAllMentionsAPI.unread self)).
  - rewrite Eq.
    now destruct (truthy (FetchAllMentionsAPI.unread self)).
  - injection Etone as <-.
    now destruct (truthy (FetchAllMentionsAPI.unread self)).
  - now rewrite Esrc.
  - now rewrite Ecn.
  - now rewrite Eic.
  - now rewrite Esort.
  - now rewrite Elang.
  - now rewrite Etz.
Qed.

(** The optional arguments of the children listing: an absent
    [before_date] stays in the parameters with the empty string and is
    left out of the url, an absent [limit] sets no key. *)
Lemma children_absent_fields tok acc al mid lim bd self p :
  FetchMentionChildrenAPI.__init__ tok acc al mid lim bd = Ok self ->
  FetchMentionChildrenAPI.params self = Ok p ->
  FetchMentionChildrenAPI.url self = Ok (children_url acc al mid p)
  /\ (bd = None ->
      dict_get "before_date" p = Some (VStr "")
      /\ dict_get "before_date" (query_items p) = None)
  /\ (lim = VNone ->
      dict_get "limit" p = None
      /\ dict_get "limit" (query_items p) = None).
Proof.
  intros Hinit Hp.
  split.
  { rewrite (ChildrenFacts.children_url_spec _ _ Hp).
    unfold FetchMentionChildrenAPI.__init__ in Hinit.
    destruct (opt_date bd) as [d|e]; [|discriminate].
    cbn in Hinit. now injection Hinit as <-. }
  pose proof (ChildrenFacts.children_params_wf _ _ Hp) as Hwf.
  destruct (ChildrenFacts.children_params_ids _ _ Hp) as (_ & _ & _ & Hbd).
  unfold FetchMentionChildrenAPI.__init__ in Hinit.
  split.
  - intros ->. cbn in Hinit. injection Hinit as <-.
    cbn in Hbd. split; [exact Hbd|].
    rewrite dict_get_query_items by exact Hwf. rewrite Hbd. reflexivity.
  - intros ->.
    destruct (opt_date bd) as [d|e]; [|discriminate].
    cbn in Hinit. injection Hinit as <-.
    rewrite ChildrenFacts.children_params_cases in Hp. cbn in Hp.
    injection Hp as <-. split; [reflexivity|].
    rewrite dict_get_query_items by exact Hwf. reflexivity.
Qed.

(** C5, as the code has it.  An optional field passed as [None] is not a
    key of the body that creates, updates or curates (the tone of a
    curated mention: when [read] is [None] too), nor of the parameters and
    query fields of the mention list, [not_before_date] set apart.  The
    parameters of the children listing keep an absent [before_date] as a
    key with the empty string, which the url leaves out, and have no
    [limit] key for an absent limit. *)
Theorem absent_fields_are_left_out :
  (forall tok acc name queryd languages
          countries sources blocked_sites noise_detection reviews_pages,
     exists d,
       CreateAnAlertAPI.data_dict
         (CreateAnAlertAPI.__init__ tok acc name queryd languages countries
            sources blocked_sites noise_detection reviews_pages) = Ok d
       /\ (countries = None -> dict_get "countries" d = None)
       /\ (sources = None -> dict_get "sources" d = None)
       /\ (blocked_sites = None -> dict_get "blocked_sites" d = None)
       /\ (noise_detection = None -> dict_get "noise_detection" d = None)
       /\ (reviews_pages = None -> dict_get "reviews_pages" d = None))
  /\ (forall tok acc al name queryd languages
             countries sources blocked_sites noise_detection reviews_pages,
        exists d,
          UpdateAnAlertAPI.data_dict
            (UpdateAnAlertAPI.__init__ tok acc al name queryd languages
               countries sources blocked_sites noise_detection reviews_pages)
          = Ok d
          /\ (countries = None -> dict_get "countries" d = None)
          /\ (sources = None -> dict_get "sources" d = None)
          /\ (blocked_sites = None -> dict_get "blocked_sites" d = None)
          /\ (noise_detection = None -> dict_get "noise_detection" d = None)
          /\ (reviews_pages = None -> dict_get "reviews_pages" d = None))
  /\ (forall tok acc al mid favorite trashed read tags folder tone self,
        CurateAMentionAPI.__init__ tok acc al mid favorite trashed read tags
          folder tone = Ok self ->
        exists d,
          CurateAMentionAPI.data_dict self = Ok d
          /\ (favorite = None -> dict_get "favorite" d = None)
          /\ (trashed = None -> dict_get "trashed" d = None)
          /\ (read = None -> dict_get "read" d = None)
          /\ (tags = None -> dict_get "tags" d = None)
          /\ (folder = None -> dict_get "folder" d = None)
          /\ (read = None -> tone = None -> dict_get "tone" d = None))
  /\ (forall tok acc al kw self n,
        FetchAllMentionsAPI.__init__ tok acc al kw = Ok self ->
        py_int (FetchAllMentionsAPI.limit self) = Ok n ->
        exists p,
          FetchAllMentionsAPI.params self = Ok p
          /\ (acc <> "" -> al <> "" ->
              FetchAllMentionsAPI.url self = Ok (mentions_url acc al p))
          /\ (forall k,
                dict_get k p = None -> dict_get k (query_items p) = None)
          /\ (FetchAllMentionsAPI.kw_since_id kw = None ->
              dict_get "since_id" p = None)
          /\ (FetchAllMentionsAPI.kw_before_date kw = None ->
              dict_get "before_date" p = None)
          /\ (FetchAllMentionsAPI.kw_cursor kw = None ->
              dict_get "cursor" p = None)
          /\ (FetchAllMentionsAPI.kw_unread kw = None ->
              dict_get "unread" p = None)
          /\ (FetchAllMentionsAPI.kw_favorite kw = None ->
              dict_get "favorite" p = None)
          /\ (FetchAllMentionsAPI.kw_folder kw = None ->
              dict_get "folder" p = None)
          /\ (FetchAllMentionsAPI.kw_q kw = None -> dict_get "q" p = None)
          /\ (FetchAllMentionsAPI.kw_tone kw = None ->
              dict_get "tone" p = None)
          /\ (FetchAllMentionsAPI.kw_source kw = None ->
              dict_get "source" p = None)
          /\ (FetchAllMentionsAPI.kw_countries kw = None ->
              dict_get "countries" p = None)
          /\ (FetchAllMentionsAPI.kw_include_children kw = None ->
              dict_get "include_children" p = None)
          /\ (FetchAllMentionsAPI.kw_sort kw = None ->
              dict_get "sort" p = None)
          /\ (FetchAllMentionsAPI.kw_languages kw = None ->
              dict_get "languages" p = None)
          /\ (FetchAllMentionsAPI.kw_timezone kw = None ->
              dict_get "timezone" p = None))
  /\ (forall tok acc al mid lim bd self p,
        FetchMentionChildrenAPI.__init__ tok acc al mid lim bd = Ok self ->
        FetchMentionChildrenAPI.params self = Ok p ->
        FetchMentionChildrenAPI.url self = Ok (children_url acc al mid p)
        /\ (bd = None ->
            dict_get "before_date" p = Some (VStr "")
            /\ dict_get "before_date" (query_items p) = None)
        /\ (lim = VNone ->
            dict_get "limit" p = None
            /\ dict_get "limit" (query_items p) = None)).
Proof.
  split; [exact create_absent_fields|].
  split; [exact update_absent_fields|].
  split; [exact curate_absent_fields|].
  split; [exact mentions_absent_fields|].
  exact children_absent_fields.
Qed.

(** C5 as stated fails: the children of a mention asked for without
    [before_date] have the key [before_date] in their parameters. *)
Lemma children_keep_absent_before_date :
  exists self,
    children_plain = Ok self
    /\ FetchMentionChildrenAPI.params self
       = Ok [("access_token", VStr "T"); ("account_id", VStr "A");
             ("alert_id", VStr "B"); ("mention_id", VStr "M");
             ("before_date", VStr "")]
    /\ (forall p, FetchMentionChildrenAPI.params self = Ok p ->
                  In "before_date" (keys p)).
Proof.
  eexists. split; [reflexivity|]. split; [reflexivity|].
  intros p [= <-]. cbn. tauto.
Qed.

(** ** The theorems at sample builds *)

Lemma since_id_excludes_dates_and_cursor_witness :
  exists self p,
    FetchAllMentionsAPI.__init__ "T" "A" "B" kw_since = Ok self
    /\ FetchAllMentionsAPI.params self = Ok p
    /\ dict_get "since_id" p = Some (VStr "42")
    /\ dict_get "before_date" p = None
    /\ dict_get "cursor" (query_items p) = None.
Proof.
  destruct (since_id_excludes_dates_and_cursor "T" "A" "B" kw_since _
              "42" 20 eq_refl eq_refl ltac:(discriminate) eq_refl
              ltac:(discriminate) ltac:(discriminate))
    as (p & Hp & _ & Hs & Hb & _ & _ & _ & _ & _ & Hc).
  eexists. exists p. split; [reflexivity|].
  repeat split; assumption.
Defined.

Lemma favorite_needs_inbox_or_archive_witness :
  exists self p,
    FetchAllMentionsAPI.__init__ "T" "A" "B" (kw_inbox (VInt 5000)) = Ok self
    /\ FetchAllMentionsAPI.params self = Ok p
    /\ dict_get "favorite" p = Some (VStr "true")
    /\ dict_get "folder" p = Some (VStr "inbox").
Proof.
  destruct (favorite_needs_inbox_or_archive "T" "A" "B"
              (kw_inbox (VInt 5000)) _ 5000 eq_refl eq_refl eq_refl)
    as (p & Hp & Hboth & _).
  destruct (Hboth true "inbox" eq_refl eq_refl (or_introl eq_refl))
    as [Hfav Hfol].
  eexists. exists p. split; [reflexivity|].
  repeat split; assumption.
Defined.

Lemma limit_defaults_to_20_witness :
  exists self p,
    FetchAllMentionsAPI.__init__ "T" "A" "B" FetchAllMentionsAPI.defaults
    = Ok self
    /\ FetchAllMentionsAPI.limit self = VStr "20"
    /\ FetchAllMentionsAPI.params self = Ok p
    /\ dict_get "limit" p = Some (VStr "20").
Proof.
  destruct (limit_defaults_to_20 "T" "A" "B" FetchAllMentionsAPI.defaults
              _ eq_refl eq_refl)
    as (Hlim & p & Hp & Hget & _).
  eexists. exists p. split; [reflexivity|].
  repeat split; assumption.
Defined.

Lemma unread_false_counts_as_present_witness :
  exists self p,
    FetchAllMentionsAPI.__init__ "T" "A" "B" kw_unread_false = Ok self
    /\ FetchAllMentionsAPI.params self = Ok p
    /\ dict_get "unread" p = Some (VStr "false")
    /\ dict_get "folder" p = None
    /\ dict_get "q" p = None
    /\ dict_get "tone" p = None.
Proof.
  destruct (unread_false_counts_as_present "T" "A" "B" kw_unread_false
              _ 20 false eq_refl eq_refl eq_refl)
    as (_ & p & Hp & Hun & _ & Hfol & Hq & Htone & _).
  eexists. exists p. split; [reflexivity|].
  repeat split; assumption.
Defined.

Lemma limit_is_clamped_witness :
  exists self p,
    children_limit_0 = Ok self
    /\ FetchMentionChildrenAPI.params self = Ok p
    /\ dict_get "limit" p = Some (VStr "")
    /\ dict_get "limit" (query_items p) = None.
Proof.
  destruct (proj1 (proj2 limit_is_clamped)
              {| FetchMentionChildrenAPI.access_token := "T";
                 FetchMentionChildrenAPI.account_id := "A";
                 FetchMentionChildrenAPI.alert_id := "B";
                 FetchMentionChildrenAPI.mention_id := "M";
                 FetchMentionChildrenAPI.limit := VStr "0";
                 FetchMentionChildrenAPI.before_date := VNone |}
              0 eq_refl eq_refl)
    as (p & Hp & _ & _ & Hlow & _).
  eexists. exists p. split; [reflexivity|]. split; [exact Hp|].
  apply Hlow. reflexivity.
Defined.

Lemma absent_fields_are_left_out_witness :
  exists self p,
    FetchAllMentionsAPI.__init__ "T" "A" "B" kw_since = Ok self
    /\ FetchAllMentionsAPI.params self = Ok p
    /\ dict_get "unread" p = None
    /\ dict_get "folder" p = None
    /\ dict_get "folder" (query_items p) = None.
Proof.
  destruct (proj1 (proj2 (proj2 (proj2 absent_fields_are_left_out)))
              "T" "A" "B" kw_since _ 20 eq_refl eq_refl)
    as (p & Hp & _ & Hq & _ & _ & _ & Hun & _ & Hfol & _).
  eexists. exists p. split; [reflexivity|]. split; [exact Hp|].
  split; [exact (Hun eq_refl)|].
  split; [exact (Hfol eq_refl)|exact (Hq _ (Hfol eq_refl))].
Defined.

Lemma http_error_is_swallowed_witness :
  AppDataAPI.query lib_404 (AppDataAPI.__init__ "T") = Ok "not found".
Proof.
  exact (proj1 (http_error_is_swallowed string lib_404)
           (AppDataAPI.__init__ "T")
           {| status_code := 404; text := "not found" |} eq_refl).
Defined.

(** * Further properties of the module *)

(** ** The urls that are a path only *)

Lemma format_go_missing kw (l k r : string) :
  plain l = true ->
  plain k = true ->
  dict_get k kw = None ->
  format_go kw None (l ++ String "{" (k ++ String "}" r)) = Raise KeyError.
Proof.
  intros Hl Hk Hget.
  rewrite (format_go_plain kw l _ Hl), (format_go_open kw k r Hk).
  rewrite (format_go_name kw EmptyString k r Hk).
  simpl. unfold dict_item. rewrite Hget. reflexivity.
Qed.

(** X1. The urls of the seven endpoints without query fields never raise:
    they are the base url and the path, with the identifiers put in as
    they are, whatever characters they hold. *)
Theorem path_urls_interpolate_identifiers :
  (forall self,
     FetchAnAlertAPI.url self
     = Ok (_base_url ++ "/accounts/" ++ FetchAnAlertAPI.account_id self
             ++ "/alerts/" ++ FetchAnAlertAPI.alert_id self))
  /\ (forall self,
        CreateAnAlertAPI.url self
        = Ok (_base_url ++ "/accounts/" ++ CreateAnAlertAPI.account_id self
                ++ "/alerts/"))
  /\ (forall self,
        UpdateAnAlertAPI.url self
        = Ok (_base_url ++ "/accounts/" ++ UpdateAnAlertAPI.account_id self
                ++ "/alerts/" ++ UpdateAnAlertAPI.alert_id self))
  /\ (forall self,
        FetchAlertsAPI.url self
        = Ok (_base_url ++ "/accounts/" ++ FetchAlertsAPI.account_id self
                ++ "/alerts"))
  /\ (forall self,
        FetchAMentionAPI.url self
        = Ok (_base_url ++ "/accounts/" ++ FetchAMentionAPI.account_id self
                ++ "/alerts/" ++ FetchAMentionAPI.alert_id self
                ++ "/mentions/" ++ FetchAMentionAPI.mention_id self))
  /\ (forall self,
        CurateAMentionAPI.url self
        = Ok (_base_url ++ "/accounts/" ++ CurateAMentionAPI.account_id self
                ++ "/alerts/" ++ CurateAMentionAPI.alert_id self
                ++ "/mentions/" ++ CurateAMentionAPI.mention_id self))
  /\ (forall self,
        MarkAllMentionsAsReadAPI.url self
        = Ok (_base_url ++ "/accounts/"
                ++ MarkAllMentionsAsReadAPI.account_id self
                ++ "/alerts/" ++ MarkAllMentionsAsReadAPI.alert_id self
                ++ "/mentions/markallread")).
Proof.
  split; [|split; [|split; [|split; [|split; [|split]]]]]; intros self.
  - unfold FetchAnAlertAPI.url, format. cbn.
    now rewrite append_nil_r.
  - reflexivity.
  - unfold UpdateAnAlertAPI.url, format. cbn.
    now rewrite append_nil_r.
  - reflexivity.
  - unfold FetchAMentionAPI.url, format. cbn.
    now rewrite append_nil_r.
  - unfold CurateAMentionAPI.url, format. cbn.
    now rewrite append_nil_r.
  - reflexivity.
Qed.

(** ** The parameters of the mention list as a whole *)

(** X2. With an integer limit and an empty account or alert identifier the
    url of the mention list raises [KeyError]: the deleting loop of
    [params] removes the empty identifier, and the template still names
    it. *)
Theorem mentions_url_needs_identifiers self n :
  py_int (FetchAllMentionsAPI.limit self) = Ok n ->
  FetchAllMentionsAPI.account_id self = ""
  \/ FetchAllMentionsAPI.alert_id self = "" ->
  FetchAllMentionsAPI.url self = Raise KeyError.
Proof.
  intros Hn Hempty.
  destruct (built_params self n Hn) as (p & Hp & Hwf & Hget).
  unfold FetchAllMentionsAPI.url. rewrite Hp. cbn [bind].
  rewrite add_fields_spec. fold (query_items p). unfold format.
  change ("/accounts/{account_id}/alerts/{alert_id}/mentions?"
            ++ fields_template (query_items p))
    with ("/accounts/" ++ String "{" ("account_id" ++ String "}"
            ("/alerts/" ++ String "{" ("alert_id" ++ String "}"
               ("/mentions?" ++ fields_template (query_items p)))))).
  destruct (String.eqb_spec (FetchAllMentionsAPI.account_id self) "")
    as [Hacc|Hacc].
  - rewrite (format_go_missing p "/accounts/" "account_id" _ eq_refl eq_refl);
      [reflexivity|].
    rewrite Hget, MentionsFacts.filled_account_id, Hacc. reflexivity.
  - destruct Hempty as [Hacc'|Hal]; [contradiction|].
    rewrite (format_go_field p "/accounts/" "account_id" _ _ eq_refl eq_refl
               (MentionsFacts.params_account_id self p Hp Hacc)).
    rewrite (format_go_missing p "/alerts/" "alert_id" _ eq_refl eq_refl);
      [reflexivity|].
    rewrite Hget, MentionsFacts.filled_alert_id, Hal. reflexivity.
Qed.

(** X3. [params] of the mention list raises exactly when
    [int(self.limit)] does, with the same exception; the deleting loop
    never raises.  The url raises the same exception then. *)
Theorem mentions_params_raises_only_on_limit self e :
  (FetchAllMentionsAPI.params self = Raise e
   <-> py_int (FetchAllMentionsAPI.limit self) = Raise e)
  /\ (py_int (FetchAllMentionsAPI.limit self) = Raise e ->
      FetchAllMentionsAPI.url self = Raise e).
Proof.
  split; [split|].
  - destruct (py_int (FetchAllMentionsAPI.limit self)) as [n|e'] eqn:Hn.
    + rewrite (MentionsFacts.params_spec self n Hn). discriminate.
    + unfold FetchAllMentionsAPI.params. rewrite Hn. cbn [bind].
      intros [= ->]. reflexivity.
  - intros Hn. unfold FetchAllMentionsAPI.params. now rewrite Hn.
  - intros Hn. unfold FetchAllMentionsAPI.url, FetchAllMentionsAPI.params.
    now rewrite Hn.
Qed.

(** X4. The parameters of the mention list have distinct keys and no
    value equal to the empty string. *)
Theorem mentions_params_has_no_empty_value self p :
  FetchAllMentionsAPI.params self = Ok p ->
  NoDup (keys p)
  /\ forall k v, In (k, v) p -> is_empty_str v = false.
Proof.
  intros Hp.
  split; [exact (proj1 (MentionsFacts.params_wf self p Hp))|].
  destruct (py_int (FetchAllMentionsAPI.limit self)) as [n|e] eqn:Hn.
  - rewrite (MentionsFacts.params_spec self n Hn) in Hp.
    injection Hp as <-. intros k v Hin.
    apply filter_In in Hin as [_ Hne]. unfold nonempty in Hne.
    now apply negb_true_iff in Hne.
  - unfold FetchAllMentionsAPI.params in Hp. rewrite Hn in Hp. discriminate.
Qed.

(** *** Subsequences *)

Lemma subseq_step (b : list string) :
  (forall x a, subseq (x :: a) b = true -> subseq a b = true)
  /\ (forall a y, subseq a b = true -> subseq a (y :: b) = true).
Proof.
  induction b as [|y0 b [IHa IHb]].
  - split.
    + intros x a H. discriminate.
    + intros [|x a] y H; [reflexivity|discriminate].
  - assert (Ha : forall x a, subseq (x :: a) (y0 :: b) = true ->
                             subseq a (y0 :: b) = true).
    { intros x a H. cbn in H.
      destruct (x =? y0)%string; apply IHb; [exact H|exact (IHa x a H)]. }
    split; [exact Ha|].
    intros [|x a] y H; [reflexivity|].
    cbn [subseq]. destruct (x =? y)%string; [exact (Ha x a H)|exact H].
Qed.

Lemma subseq_trans (c a b : list string) :
  subseq a b = true -> subseq b c = true -> subseq a c = true.
Proof.
  revert a b.
  induction c as [|z c IH]; intros a b Hab Hbc.
  - destruct b; [|discriminate]. destruct a; [reflexivity|discriminate].
  - destruct b as [|y b]; [destruct a; [reflexivity|discriminate]|].
    cbn [subseq] in Hbc.
    destruct (String.eqb_spec y z) as [->|Hyz].
    + destruct a as [|x a]; [reflexivity|].
      cbn [subseq] in Hab |- *.
      destruct (x =? z)%string; now apply (IH _ b).
    + apply (proj2 (subseq_step c)). now apply (IH a (y :: b)).
Qed.

Lemma subseq_keys_filter {V : Type} (f : string * V -> bool) (d : dict V) :
  subseq (keys (filter f d)) (keys d) = true.
Proof.
  unfold keys.
  induction d as [|[k v] d IH]; [reflexivity|].
  cbn [filter]. destruct (f (k, v)); cbn [map fst subseq].
  - now rewrite String.eqb_refl.
  - now apply (proj2 (subseq_step (map fst d))).
Qed.

Lemma filled_key_order self n :
  subseq (keys (FetchAllMentionsAPI.params_filled self n)) mentions_key_order
  = true.
Proof.
  unfold FetchAllMentionsAPI.params_filled.
  destruct (truthy (FetchAllMentionsAPI.since_id self)),
    (truthy (FetchAllMentionsAPI.unread self)),
    (truthy (FetchAllMentionsAPI.favorite self)
     && (eq_str (FetchAllMentionsAPI.folder self) "inbox"
         || eq_str (FetchAllMentionsAPI.folder self) "archive")),
    (n >? 1000), (n <? 1);
  reflexivity.
Qed.

(** X5. The keys of the parameters of the mention list, hence the query
    fields of its url, always come in one fixed relative order, the order
    in which [params] assigns them. *)
Theorem mentions_params_key_order self p :
  FetchAllMentionsAPI.params self = Ok p ->
  subseq (keys p) mentions_key_order = true
  /\ subseq (keys (query_items p)) mentions_key_order = true.
Proof.
  intros Hp.
  assert (Hk : subseq (keys p) mentions_key_order = true).
  { destruct (py_int (FetchAllMentionsAPI.limit self)) as [n|e] eqn:Hn.
    - rewrite (MentionsFacts.params_spec self n Hn) in Hp.
      injection Hp as <-.
      exact (subseq_trans _ _ _ (subseq_keys_filter _ _)
               (filled_key_order self n)).
    - unfold FetchAllMentionsAPI.params in Hp. rewrite Hn in Hp.
      discriminate. }
  split; [exact Hk|].
  unfold query_items, without_keys.
  apply (subseq_trans _ _ _ (subseq_keys_filter _ _)).
  exact (subseq_trans _ _ _ (subseq_keys_filter _ _) Hk).
Qed.

(** *** The url and the fields that pass through *)

Lemma truthy_not_empty v : truthy v = true -> is_empty_str v = false.
Proof.
  destruct v as [| | |s]; try reflexivity.
  simpl. now destruct (s =? "")%string.
Qed.

Lemma filter_all {A : Type} (f : A -> bool) (l : list A) :
  (forall x, In x l -> f x = true) -> filter f l = l.
Proof.
  induction l as [|x l IH]; intros H; [reflexivity|].
  cbn. rewrite (H x (or_introl eq_refl)).
  f_equal. apply IH. intros y Hy. apply H. now right.
Qed.

Lemma mentions_params_entries self p :
  FetchAllMentionsAPI.params self = Ok p ->
  forall k v, In (k, v) p -> is_empty_str v = false.
Proof.
  intros Hp.
  destruct (py_int (FetchAllMentionsAPI.limit self)) as [n|e] eqn:Hn.
  - rewrite (MentionsFacts.params_spec self n Hn) in Hp.
    injection Hp as <-. intros k v Hin.
    apply filter_In in Hin as [_ Hne]. unfold nonempty in Hne.
    now apply negb_true_iff in Hne.
  - unfold FetchAllMentionsAPI.params in Hp. rewrite Hn in Hp. discriminate.
Qed.

(** X6. The url of the mention list, for non-empty identifiers: the path,
    then one [&key=value] for every parameter other than the three
    identifiers, all of them and in the order of [params]; the access
    token and the identifiers are never query fields. *)
Theorem mentions_url_is_path_then_fields self p :
  FetchAllMentionsAPI.params self = Ok p ->
  FetchAllMentionsAPI.account_id self <> "" ->
  FetchAllMentionsAPI.alert_id self <> "" ->
  FetchAllMentionsAPI.url self
  = Ok (_base_url ++ "/accounts/" ++ FetchAllMentionsAPI.account_id self
          ++ "/alerts/" ++ FetchAllMentionsAPI.alert_id self ++ "/mentions?"
          ++ render_query (without_keys p path_keys))
  /\ dict_get "access_token" (without_keys p path_keys) = None
  /\ dict_get "account_id" (without_keys p path_keys) = None
  /\ dict_get "alert_id" (without_keys p path_keys) = None
  /\ (forall k,
        existsb (String.eqb k) path_keys = false ->
        dict_get k (without_keys p path_keys) = dict_get k p).
Proof.
  intros Hp Hacc Hal.
  assert (Hq : query_items p = without_keys p path_keys).
  { unfold query_items. apply filter_all. intros [k v] Hin.
    unfold without_keys in Hin. apply filter_In in Hin as [Hin _].
    unfold nonempty. cbn [snd].
    now rewrite (mentions_params_entries self p Hp k v Hin). }
  rewrite <- Hq. split.
  - exact (MentionsFacts.url_spec self p Hp Hacc Hal).
  - rewrite Hq. rewrite !dict_get_without_keys.
    repeat split. intros k Hk. now rewrite dict_get_without_keys, Hk.
Qed.

(** X7. Without a [since_id] (absent or empty) and with a [before_date]:
    the [before_date] is a parameter, and [not_before_date] is set to its
    attribute whatever that is, so an absent one is the parameter [None]
    and a query field rendered as the text None. *)
Theorem before_date_carries_not_before_date self n :
  py_int (FetchAllMentionsAPI.limit self) = Ok n ->
  truthy (FetchAllMentionsAPI.since_id self) = false ->
  truthy (FetchAllMentionsAPI.before_date self) = true ->
  exists p,
    FetchAllMentionsAPI.params self = Ok p
    /\ dict_get "before_date" p = Some (FetchAllMentionsAPI.before_date self)
    /\ dict_get "since_id" p = None
    /\ (truthy (FetchAllMentionsAPI.not_before_date self) = true ->
        dict_get "not_before_date" p
        = Some (FetchAllMentionsAPI.not_before_date self))
    /\ (FetchAllMentionsAPI.not_before_date self = VNone ->
        dict_get "not_before_date" p = Some VNone
        /\ dict_get "not_before_date" (query_items p) = Some VNone
        /\ render_query [("not_before_date", VNone)]
           = "&not_before_date=None").
Proof.
  intros Hn Hs Hb.
  destruct (built_params self n Hn) as (p & Hp & Hwf & Hget).
  exists p. split; [exact Hp|].
  rewrite dict_get_query_items by exact Hwf. simpl (existsb _ _).
  rewrite !Hget, MentionsFacts.filled_before_date,
    MentionsFacts.filled_since_id, MentionsFacts.filled_not_before_date.
  unfold or_empty. rewrite Hs, Hb, (truthy_not_empty _ Hb).
  repeat split.
  - intros Ht. now rewrite (truthy_not_empty _ Ht).
  - now rewrite H.
  - now rewrite H.
Qed.

(** X8. The fields without a rule of their own are passed through as they
    are whenever they are truthy, with no check of a vocabulary: source,
    countries, include_children, sort, languages and timezone always, the
    cursor without a [since_id], [q] and the tone without an unread
    filter. *)
Theorem mentions_fields_pass_through self n :
  py_int (FetchAllMentionsAPI.limit self) = Ok n ->
  exists p,
    FetchAllMentionsAPI.params self = Ok p
    /\ (truthy (FetchAllMentionsAPI.source self) = true ->
        dict_get "source" p = Some (FetchAllMentionsAPI.source self))
    /\ (truthy (FetchAllMentionsAPI.countries self) = true ->
        dict_get "countries" p = Some (FetchAllMentionsAPI.countries self))
    /\ (truthy (FetchAllMentionsAPI.include_children self) = true ->
        dict_get "include_children" p
        = Some (FetchAllMentionsAPI.include_children self))
    /\ (truthy (FetchAllMentionsAPI.sort self) = true ->
        dict_get "sort" p = Some (FetchAllMentionsAPI.sort self))
    /\ (truthy (FetchAllMentionsAPI.languages self) = true ->
        dict_get "languages" p = Some (FetchAllMentionsAPI.languages self))
    /\ (truthy (FetchAllMentionsAPI.timezone self) = true ->
        dict_get "timezone" p = Some (FetchAllMentionsAPI.timezone self))
    /\ (truthy (FetchAllMentionsAPI.since_id self) = false ->
        truthy (FetchAllMentionsAPI.cursor self) = true ->
        dict_get "cursor" p = Some (FetchAllMentionsAPI.cursor self))
    /\ (truthy (FetchAllMentionsAPI.unread self) = false ->
        truthy (FetchAllMentionsAPI.q self) = true ->
        dict_get "q" p = Some (FetchAllMentionsAPI.q self))
    /\ (truthy (FetchAllMentionsAPI.unread self) = false ->
        truthy (FetchAllMentionsAPI.tone self) = true ->
        dict_get "tone" p = Some (FetchAllMentionsAPI.tone self)).
Proof.
  intros Hn.
  destruct (built_params self n Hn) as (p & Hp & Hwf & Hget).
  exists p. split; [exact Hp|].
  rewrite !Hget, MentionsFacts.filled_source, MentionsFacts.filled_countries,
    MentionsFacts.filled_include_children, MentionsFacts.filled_sort,
    MentionsFacts.filled_languages, MentionsFacts.filled_timezone,
    MentionsFacts.filled_cursor, MentionsFacts.filled_q,
    MentionsFacts.filled_tone.
  unfold or_empty.
  repeat split.
  1-6: intros Ht; now rewrite Ht, (truthy_not_empty _ Ht).
  all: intros Hf Ht; now rewrite Hf, Ht, (truthy_not_empty _ Ht).
Qed.

(** ** The children listing as a whole *)

(** X9. Whenever its parameters exist, the url of the children listing
    exists too, even with empty identifiers: nothing is deleted from the
    parameters.  The mention identifier is not among the keys that [url]
    sets apart, so a non-empty one is also the first query field. *)
Theorem children_url_repeats_mention_id self p :
  FetchMentionChildrenAPI.params self = Ok p ->
  FetchMentionChildrenAPI.url self
  = Ok (_base_url ++ "/accounts/" ++ FetchMentionChildrenAPI.account_id self
          ++ "/alerts/" ++ FetchMentionChildrenAPI.alert_id self
          ++ "/mentions/" ++ FetchMentionChildrenAPI.mention_id self
          ++ "/children?" ++ render_query (query_items p))
  /\ (FetchMentionChildrenAPI.mention_id self <> "" ->
      hd_error (query_items p)
      = Some ("mention_id", VStr (FetchMentionChildrenAPI.mention_id self)))
  /\ (FetchMentionChildrenAPI.mention_id self = "" ->
      dict_get "mention_id" (query_items p) = None).
Proof.
  intros Hp.
  split; [exact (ChildrenFacts.children_url_spec self p Hp)|].
  pose proof (ChildrenFacts.children_params_wf self p Hp) as Hwf.
  split.
  - intros Hne. apply String.eqb_neq in Hne.
    rewrite ChildrenFacts.children_params_cases in Hp. cbv zeta in Hp.
    destruct (truthy (FetchMentionChildrenAPI.limit self)).
    + destruct (py_int (FetchMentionChildrenAPI.limit self)) as [n|e];
        [|discriminate].
      injection Hp as <-. unfold query_items, without_keys, nonempty.
      cbn. now rewrite Hne.
    + injection Hp as <-. unfold query_items, without_keys, nonempty.
      cbn. now rewrite Hne.
  - intros He.
    rewrite dict_get_query_items by exact Hwf. simpl (existsb _ _).
    destruct (ChildrenFacts.children_params_ids self p Hp)
      as (_ & _ & Hm & _).
    now rewrite Hm, He.
Qed.

(** X10. [params] of the children listing raises exactly when the limit is
    truthy and [int(self.limit)] raises; an absent, empty or zero limit is
    never converted.  The url raises exactly when [params] does. *)
Theorem children_params_raise_only_on_limit self e :
  (FetchMentionChildrenAPI.params self = Raise e
   <-> truthy (FetchMentionChildrenAPI.limit self) = true
       /\ py_int (FetchMentionChildrenAPI.limit self) = Raise e)
  /\ (FetchMentionChildrenAPI.url self = Raise e
      <-> FetchMentionChildrenAPI.params self = Raise e).
Proof.
  split.
  - rewrite ChildrenFacts.children_params_cases. cbv zeta.
    destruct (truthy (FetchMentionChildrenAPI.limit self)).
    + destruct (py_int (FetchMentionChildrenAPI.limit self)) as [n|e'];
        cbn [bind].
      * split; [discriminate|]. intros [_ H]. discriminate.
      * split.
        -- intros [= ->]. now split.
        -- intros [_ [= ->]]. reflexivity.
    + split; [discriminate|]. intros [H _]. discriminate.
  - destruct (FetchMentionChildrenAPI.params self) as [p|e'] eqn:Hp.
    + rewrite (ChildrenFacts.children_url_spec self p Hp).
      split; discriminate.
    + unfold FetchMentionChildrenAPI.url. rewrite Hp. cbn [bind].
      split; intros [= ->]; reflexivity.
Qed.

(** ** The bodies of the create, update and curate calls *)

Lemma jtruthy_not_empty j : jtruthy j = true -> jis_empty_str j = false.
Proof.
  destruct j as [v|l|d]; try reflexivity.
  exact (truthy_not_empty v).
Qed.

(** Lookups in a body after its deleting loop. *)
Ltac body_lookup :=
  cbn [dict_set String.eqb Ascii.eqb Bool.eqb];
  match goal with
  | |- exists d, jdel_empty ?c = Ok d /\ _ =>
      let d := fresh "d" in
      let Hd := fresh "Hd" in
      let Hget := fresh "Hget" in
      destruct (jdel_empty_get c) as (d & Hd & Hget); [nodup_keys|];
      exists d; split; [exact Hd|];
      rewrite !Hget; cbn [dict_get String.eqb Ascii.eqb Bool.eqb]
  end.

(** X11. The body that creates or updates an alert always exists.  The
    query and the languages are always in it, an empty dictionary or list
    included; the name is in it unless it is the empty string, which the
    deleting loop removes like an absent optional field. *)
Theorem alert_body_required_fields :
  (forall self,
     exists d,
       CreateAnAlertAPI.data_dict self = Ok d
       /\ dict_get "query" d = Some (JDict (CreateAnAlertAPI.queryd self))
       /\ dict_get "languages" d
          = Some (JList (map jstr (CreateAnAlertAPI.languages self)))
       /\ dict_get "name" d
          = if (CreateAnAlertAPI.name self =? "")%string then None
            else Some (jstr (CreateAnAlertAPI.name self)))
  /\ (forall self,
        exists d,
          UpdateAnAlertAPI.data_dict self = Ok d
          /\ dict_get "query" d = Some (JDict (UpdateAnAlertAPI.queryd self))
          /\ dict_get "languages" d
             = Some (JList (map jstr (UpdateAnAlertAPI.languages self)))
          /\ dict_get "name" d
             = if (UpdateAnAlertAPI.name self =? "")%string then None
               else Some (jstr (UpdateAnAlertAPI.name self))).
Proof.
  split; intros self.
  - unfold CreateAnAlertAPI.data_dict. body_lookup.
    repeat split.
  - unfold UpdateAnAlertAPI.data_dict. body_lookup.
    repeat split.
Qed.

(** X12. An optional field of the body that creates or updates an alert is
    in the body, unchanged, exactly when its attribute is truthy: an empty
    list is left out like [None]. *)
Theorem alert_body_optional_fields :
  (forall self,
     exists d,
       CreateAnAlertAPI.data_dict self = Ok d
       /\ dict_get "countries" d
          = (if jtruthy (CreateAnAlertAPI.countries self)
             then Some (CreateAnAlertAPI.countries self) else None)
       /\ dict_get "sources" d
          = (if jtruthy (CreateAnAlertAPI.sources self)
             then Some (CreateAnAlertAPI.sources self) else None)
       /\ dict_get "blocked_sites" d
          = (if jtruthy (CreateAnAlertAPI.blocked_sites self)
             then Some (CreateAnAlertAPI.blocked_sites self) else None)
       /\ dict_get "noise_detection" d
          = (if truthy (CreateAnAlertAPI.noise_detection self)
             then Some (JAtom (CreateAnAlertAPI.noise_detection self))
             else None)
       /\ dict_get "reviews_pages" d
          = (if jtruthy (CreateAnAlertAPI.reviews_pages self)
             then Some (CreateAnAlertAPI.reviews_pages self) else None))
  /\ (forall self,
        exists d,
          UpdateAnAlertAPI.data_dict self = Ok d
          /\ dict_get "countries" d
             = (if jtruthy (UpdateAnAlertAPI.countries self)
                then Some (UpdateAnAlertAPI.countries self) else None)
          /\ dict_get "sources" d
             = (if jtruthy (UpdateAnAlertAPI.sources self)
                then Some (UpdateAnAlertAPI.sources self) else None)
          /\ dict_get "blocked_sites" d
             = (if jtruthy (UpdateAnAlertAPI.blocked_sites self)
                then Some (UpdateAnAlertAPI.blocked_sites self) else None)
          /\ dict_get "noise_detection" d
             = (if truthy (UpdateAnAlertAPI.noise_detection self)
                then Some (JAtom (UpdateAnAlertAPI.noise_detection self))
                else None)
          /\ dict_get "reviews_pages" d
             = (if jtruthy (UpdateAnAlertAPI.reviews_pages self)
                then Some (UpdateAnAlertAPI.reviews_pages self) else None)).
Proof.
  split; intros self.
  - unfold CreateAnAlertAPI.data_dict. body_lookup.
    repeat split;
      match goal with
      | |- context [if jtruthy ?j then _ else _] =>
          destruct (jtruthy j) eqn:Ht;
          [now rewrite (jtruthy_not_empty _ Ht)|reflexivity]
      | |- context [if truthy ?v then _ else _] =>
          destruct (truthy v) eqn:Ht;
          [cbn; now rewrite (truthy_not_empty _ Ht)|reflexivity]
      end.
  - unfold UpdateAnAlertAPI.data_dict. body_lookup.
    repeat split;
      match goal with
      | |- context [if jtruthy ?j then _ else _] =>
          destruct (jtruthy j) eqn:Ht;
          [now rewrite (jtruthy_not_empty _ Ht)|reflexivity]
      | |- context [if truthy ?v then _ else _] =>
          destruct (truthy v) eqn:Ht;
          [cbn; now rewrite (truthy_not_empty _ Ht)|reflexivity]
      end.
Qed.

(** The lookups in the body that curates a mention. *)
Lemma curate_body_lookup self :
  exists d,
    CurateAMentionAPI.data_dict self = Ok d
    /\ dict_get "favorite" d
       = (if truthy (CurateAMentionAPI.favorite self)
          then Some (JAtom (CurateAMentionAPI.favorite self)) else None)
    /\ dict_get "trashed" d
       = (if truthy (CurateAMentionAPI.trashed self)
          then Some (JAtom (CurateAMentionAPI.trashed self)) else None)
    /\ dict_get "read" d
       = (if truthy (CurateAMentionAPI.read self)
          then Some (JAtom (CurateAMentionAPI.read self)) else None)
    /\ dict_get "tags" d
       = (if jtruthy (CurateAMentionAPI.tags self)
          then Some (CurateAMentionAPI.tags self) else None)
    /\ dict_get "folder" d
       = (if truthy (CurateAMentionAPI.folder self)
          then Some (JAtom (CurateAMentionAPI.folder self)) else None)
    /\ dict_get "tone" d
       = (if truthy (CurateAMentionAPI.tone self)
          then Some (JAtom (CurateAMentionAPI.tone self)) else None).
Proof.
  unfold CurateAMentionAPI.data_dict, CurateAMentionAPI.jor_empty.
  body_lookup.
  repeat split;
    match goal with
    | |- context [if jtruthy ?j then _ else _] =>
        destruct (jtruthy j) eqn:Ht;
        [now rewrite (jtruthy_not_empty _ Ht)|reflexivity]
    | |- context [if truthy ?v then _ else _] =>
        destruct (truthy v) eqn:Ht;
        [cbn; now rewrite (truthy_not_empty _ Ht)|reflexivity]
    end.
Qed.

(** X13. The body that curates a mention always exists and holds each of
    its six fields, unchanged, exactly when the attribute is truthy. *)
Theorem curate_body_holds_truthy_fields self :
  exists d,
    CurateAMentionAPI.data_dict self = Ok d
    /\ dict_get "favorite" d
       = (if truthy (CurateAMentionAPI.favorite self)
          then Some (JAtom (CurateAMentionAPI.favorite self)) else None)
    /\ dict_get "trashed" d
       = (if truthy (CurateAMentionAPI.trashed self)
          then Some (JAtom (CurateAMentionAPI.trashed self)) else None)
    /\ dict_get "read" d
       = (if truthy (CurateAMentionAPI.read self)
          then Some (JAtom (CurateAMentionAPI.read self)) else None)
    /\ dict_get "tags" d
       = (if jtruthy (CurateAMentionAPI.tags self)
          then Some (CurateAMentionAPI.tags self) else None)
    /\ dict_get "folder" d
       = (if truthy (CurateAMentionAPI.folder self)
          then Some (JAtom (CurateAMentionAPI.folder self)) else None)
    /\ dict_get "tone" d
       = (if truthy (CurateAMentionAPI.tone self)
          then Some (JAtom (CurateAMentionAPI.tone self)) else None).
Proof. exact (curate_body_lookup self). Qed.

Lemma jdel_empty_keys (chain d : dict Json) (order : list string) :
  NoDup (keys chain) ->
  subseq (keys chain) order = true ->
  jdel_empty chain = Ok d ->
  NoDup (keys d) /\ subseq (keys d) order = true.
Proof.
  intros Hnd Hsub Hd. unfold jdel_empty in Hd.
  rewrite (del_empty_loop_spec jis_empty_str chain Hnd) in Hd.
  assert (Heq : d = filter (nonempty jis_empty_str) chain) by congruence.
  rewrite Heq. split.
  - now apply NoDup_keys_filter.
  - exact (subseq_trans _ _ _ (subseq_keys_filter _ _) Hsub).
Qed.

(** X14. The keys of the three bodies are distinct and come in the order
    in which [data] assigns them. *)
Theorem body_key_order :
  (forall self d,
     CreateAnAlertAPI.data_dict self = Ok d ->
     NoDup (keys d) /\ subseq (keys d) alert_key_order = true)
  /\ (forall self d,
        UpdateAnAlertAPI.data_dict self = Ok d ->
        NoDup (keys d) /\ subseq (keys d) alert_key_order = true)
  /\ (forall self d,
        CurateAMentionAPI.data_dict self = Ok d ->
        NoDup (keys d) /\ subseq (keys d) curate_key_order = true).
Proof.
  split; [|split]; intros self d.
  - unfold CreateAnAlertAPI.data_dict.
    cbn [dict_set String.eqb Ascii.eqb Bool.eqb].
    apply jdel_empty_keys; [nodup_keys|reflexivity].
  - unfold UpdateAnAlertAPI.data_dict.
    cbn [dict_set String.eqb Ascii.eqb Bool.eqb].
    apply jdel_empty_keys; [nodup_keys|reflexivity].
  - unfold CurateAMentionAPI.data_dict.
    cbn [dict_set String.eqb Ascii.eqb Bool.eqb].
    apply jdel_empty_keys; [nodup_keys|reflexivity].
Qed.

(** X15. In [CurateAMentionAPI.__init__] a supplied [read] decides the
    tone: what [utils.transform_tone] returns for it is stored as [read]
    and as [tone], and both go into the body, whatever tone was passed;
    what it raises is raised by the constructor. *)
Theorem curate_read_overrides_tone tok acc al mid favorite trashed r tags
    folder tone :
  (forall s,
     utils.transform_tone r = Ok s ->
     s <> "" ->
     exists self d,
       CurateAMentionAPI.__init__ tok acc al mid favorite trashed (Some r)
         tags folder tone = Ok self
       /\ CurateAMentionAPI.read self = VStr s
       /\ CurateAMentionAPI.tone self = VStr s
       /\ CurateAMentionAPI.data_dict self = Ok d
       /\ dict_get "read" d = Some (jstr s)
       /\ dict_get "tone" d = Some (jstr s))
  /\ (forall e,
        utils.transform_tone r = Raise e ->
        CurateAMentionAPI.__init__ tok acc al mid favorite trashed (Some r)
          tags folder tone = Raise e).
Proof.
  unfold CurateAMentionAPI.__init__. split.
  - intros s -> Hs. cbn [bind fst snd].
    match goal with
    | |- exists self d, Ok ?R = Ok self /\ _ =>
        exists R; destruct (curate_body_lookup R)
          as (d & Hd & _ & _ & Hread & _ & _ & Htone)
    end.
    exists d. cbn [CurateAMentionAPI.read CurateAMentionAPI.tone] in *.
    apply String.eqb_neq in Hs. cbn [truthy] in Hread, Htone.
    rewrite Hs in Hread, Htone.
    repeat split; assumption.
  - intros e ->. reflexivity.
Qed.

(** ** One request per query *)

Lemma fetch_an_alert_url self :
  FetchAnAlertAPI.url self
  = Ok (_base_url ++ "/accounts/" ++ FetchAnAlertAPI.account_id self
          ++ "/alerts/" ++ FetchAnAlertAPI.alert_id self).
Proof. unfold FetchAnAlertAPI.url, format. cbn. now rewrite append_nil_r. Qed.

Lemma update_an_alert_url self :
  UpdateAnAlertAPI.url self
  = Ok (_base_url ++ "/accounts/" ++ UpdateAnAlertAPI.account_id self
          ++ "/alerts/" ++ UpdateAnAlertAPI.alert_id self).
Proof. unfold UpdateAnAlertAPI.url, format. cbn. now rewrite append_nil_r. Qed.

Lemma fetch_a_mention_url self :
  FetchAMentionAPI.url self
  = Ok (_base_url ++ "/accounts/" ++ FetchAMentionAPI.account_id self
          ++ "/alerts/" ++ FetchAMentionAPI.alert_id self
          ++ "/mentions/" ++ FetchAMentionAPI.mention_id self).
Proof. unfold FetchAMentionAPI.url, format. cbn. now rewrite append_nil_r. Qed.

Lemma curate_a_mention_url self :
  CurateAMentionAPI.url self
  = Ok (_base_url ++ "/accounts/" ++ CurateAMentionAPI.account_id self
          ++ "/alerts/" ++ CurateAMentionAPI.alert_id self
          ++ "/mentions/" ++ CurateAMentionAPI.mention_id self).
Proof. unfold CurateAMentionAPI.url, format. cbn. now rewrite append_nil_r. Qed.

Ltac body_exists :=
  cbn [dict_set String.eqb Ascii.eqb Bool.eqb];
  match goal with
  | |- exists d, jdel_empty ?c = Ok d =>
      let d := fresh "d" in
      let Hd := fresh "Hd" in
      destruct (jdel_empty_get c) as (d & Hd & _); [nodup_keys|];
      exists d; exact Hd
  end.

Lemma body_exists_CreateAnAlertAPI self :
  exists d, CreateAnAlertAPI.data_dict self = Ok d.
Proof. unfold CreateAnAlertAPI.data_dict. body_exists. Qed.

Lemma body_exists_UpdateAnAlertAPI self :
  exists d, UpdateAnAlertAPI.data_dict self = Ok d.
Proof. unfold UpdateAnAlertAPI.data_dict. body_exists. Qed.

Lemma body_exists_CurateAMentionAPI self :
  exists d, CurateAMentionAPI.data_dict self = Ok d.
Proof. unfold CurateAMentionAPI.data_dict. body_exists. Qed.

Lemma bind_try_raise_for_status {A : Type} (r : Response) (k : result A) :
  (_ <- try_raise_for_status r ;; k) = k.
Proof. now rewrite try_raise_for_status_ok. Qed.

(** X16. The query of each of the eight endpoints without query fields is
    one request and nothing else: it never fails before the request, it
    sends the method, the bearer token, the path url and, for the calls
    with a body, the serialised body without its empty fields, and its
    result is the decoded response (the text for the creation of an
    alert), or the exception of the request or of the decoding. *)
Theorem query_is_one_request (J : Type) (lib : Lib J) :
  (forall self,
     AppDataAPI.query lib self
     = (r <- session_request lib GET (AppDataAPI.access_token self)
               (_base_url ++ "/app/data") None ;;
        response_json lib r))
  /\ (forall self,
        FetchAnAlertAPI.query lib self
        = (r <- session_request lib GET (FetchAnAlertAPI.access_token self)
                  (_base_url ++ "/accounts/"
                     ++ FetchAnAlertAPI.account_id self
                     ++ "/alerts/" ++ FetchAnAlertAPI.alert_id self) None ;;
           response_json lib r))
  /\ (forall self,
        exists d,
          CreateAnAlertAPI.data_dict self = Ok d
          /\ CreateAnAlertAPI.query lib self
             = (r <- session_request lib POST
                       (CreateAnAlertAPI.access_token self)
                       (_base_url ++ "/accounts/"
                          ++ CreateAnAlertAPI.account_id self ++ "/alerts/")
                       (Some (json_dumps lib d)) ;;
                Ok (text r)))
  /\ (forall self,
        exists d,
          UpdateAnAlertAPI.data_dict self = Ok d
          /\ UpdateAnAlertAPI.query lib self
             = (r <- session_request lib PUT
                       (UpdateAnAlertAPI.access_token self)
                       (_base_url ++ "/accounts/"
                          ++ UpdateAnAlertAPI.account_id self
                          ++ "/alerts/" ++ UpdateAnAlertAPI.alert_id self)
                       (Some (json_dumps lib d)) ;;
                response_json lib r))
  /\ (forall self,
        FetchAlertsAPI.query lib self
        = (r <- session_request lib GET (FetchAlertsAPI.access_token self)
                  (_base_url ++ "/accounts/"
                     ++ FetchAlertsAPI.account_id self ++ "/alerts") None ;;
           response_json lib r))
  /\ (forall self,
        FetchAMentionAPI.query lib self
        = (r <- session_request lib GET (FetchAMentionAPI.access_token self)
                  (_base_url ++ "/accounts/"
                     ++ FetchAMentionAPI.account_id self
                     ++ "/alerts/" ++ FetchAMentionAPI.alert_id self
                     ++ "/mentions/" ++ FetchAMentionAPI.mention_id self)
                  None ;;
           response_json lib r))
  /\ (forall self,
        exists d,
          CurateAMentionAPI.data_dict self = Ok d
          /\ CurateAMentionAPI.query lib self
             = (r <- session_request lib PUT
                       (CurateAMentionAPI.access_token self)
                       (_base_url ++ "/accounts/"
                          ++ CurateAMentionAPI.account_id self
                          ++ "/alerts/" ++ CurateAMentionAPI.alert_id self
                          ++ "/mentions/"
                          ++ CurateAMentionAPI.mention_id self)
                       (Some (json_dumps lib d)) ;;
                response_json lib r))
  /\ (forall self,
        MarkAllMentionsAsReadAPI.query lib self
        = (r <- session_request lib POST
                  (MarkAllMentionsAsReadAPI.access_token self)
                  (_base_url ++ "/accounts/"
                     ++ MarkAllMentionsAsReadAPI.account_id self
                     ++ "/alerts/" ++ MarkAllMentionsAsReadAPI.alert_id self
                     ++ "/mentions/markallread") None ;;
           response_json lib r)).
Proof.
  assert (Hk : forall (r : result Response),
             (response <- r ;;
              _ <- try_raise_for_status response ;;
              data <- response_json lib response ;; Ok data)
             = (response <- r ;; response_json lib response)).
  { intros [r|e]; [|reflexivity]. cbn [bind].
    now rewrite bind_try_raise_for_status, bind_ret. }
  assert (Ht : forall (r : result Response),
             (response <- r ;;
              _ <- try_raise_for_status response ;; Ok (text response))
             = (response <- r ;; Ok (text response))).
  { intros [r|e]; [|reflexivity]. cbn [bind].
    now rewrite bind_try_raise_for_status. }
  split; [|split; [|split; [|split; [|split; [|split; [|split]]]]]];
    intros self.
  - unfold AppDataAPI.query. apply Hk.
  - unfold FetchAnAlertAPI.query. rewrite fetch_an_alert_url. apply Hk.
  - destruct (body_exists_CreateAnAlertAPI self) as (d & Hd).
    exists d. split; [exact Hd|].
    unfold CreateAnAlertAPI.query, CreateAnAlertAPI.data.
    change (CreateAnAlertAPI.url self)
      with (Ok (_base_url ++ "/accounts/"
                  ++ CreateAnAlertAPI.account_id self ++ "/alerts/")).
    cbn [bind]. rewrite Hd. cbn [bind].
    apply Ht.
  - destruct (body_exists_UpdateAnAlertAPI self) as (d & Hd).
    exists d. split; [exact Hd|].
    unfold UpdateAnAlertAPI.query, UpdateAnAlertAPI.data.
    rewrite update_an_alert_url.
    cbn [bind]. rewrite Hd. cbn [bind].
    apply Hk.
  - unfold FetchAlertsAPI.query.
    change (FetchAlertsAPI.url self)
      with (Ok (_base_url ++ "/accounts/"
                  ++ FetchAlertsAPI.account_id self ++ "/alerts")).
    apply Hk.
  - unfold FetchAMentionAPI.query. rewrite fetch_a_mention_url. apply Hk.
  - destruct (body_exists_CurateAMentionAPI self) as (d & Hd).
    exists d. split; [exact Hd|].
    unfold CurateAMentionAPI.query, CurateAMentionAPI.data.
    rewrite curate_a_mention_url.
    cbn [bind]. rewrite Hd. cbn [bind].
    apply Hk.
  - unfold MarkAllMentionsAsReadAPI.query.
    change (MarkAllMentionsAsReadAPI.url self)
      with (Ok (_base_url ++ "/accounts/"
                  ++ MarkAllMentionsAsReadAPI.account_id self
                  ++ "/alerts/" ++ MarkAllMentionsAsReadAPI.alert_id self
                  ++ "/mentions/markallread")).
    apply Hk.
Qed.

(** X17. The query of the two listings: when the parameters exist (and,
    for the mention list, the identifiers are not empty) it is one GET
    request to the url with its query fields, the result being the decoded
    response; when they do not, the query raises the exception of
    [int(self.limit)] and no response is decoded. *)
Theorem listing_query_is_one_request (J : Type) (lib : Lib J) :
  (forall self p,
     FetchAllMentionsAPI.params self = Ok p ->
     FetchAllMentionsAPI.account_id self <> "" ->
     FetchAllMentionsAPI.alert_id self <> "" ->
     FetchAllMentionsAPI.query lib self
     = (r <- session_request lib GET (FetchAllMentionsAPI.access_token self)
               (mentions_url (FetchAllMentionsAPI.account_id self)
                  (FetchAllMentionsAPI.alert_id self) p) None ;;
        response_json lib r))
  /\ (forall self e,
        py_int (FetchAllMentionsAPI.limit self) = Raise e ->
        FetchAllMentionsAPI.query lib self = Raise e)
  /\ (forall self p,
        FetchMentionChildrenAPI.params self = Ok p ->
        FetchMentionChildrenAPI.query lib self
        = (r <- session_request lib GET
                  (FetchMentionChildrenAPI.access_token self)
                  (children_url (FetchMentionChildrenAPI.account_id self)
                     (FetchMentionChildrenAPI.alert_id self)
                     (FetchMentionChildrenAPI.mention_id self) p) None ;;
           response_json lib r))
  /\ (forall self e,
        FetchMentionChildrenAPI.params self = Raise e ->
        FetchMentionChildrenAPI.query lib self = Raise e).
Proof.
  assert (Hk : forall (r : result Response),
             (response <- r ;;
              _ <- try_raise_for_status response ;;
              data <- response_json lib response ;; Ok data)
             = (response <- r ;; response_json lib response)).
  { intros [r|e]; [|reflexivity]. cbn [bind].
    now rewrite bind_try_raise_for_status, bind_ret. }
  split; [|split; [|split]].
  - intros self p Hp Hacc Hal. unfold FetchAllMentionsAPI.query.
    rewrite (MentionsFacts.url_spec self p Hp Hacc Hal). apply Hk.
  - intros self e Hn.
    unfold FetchAllMentionsAPI.query, FetchAllMentionsAPI.url,
      FetchAllMentionsAPI.params.
    now rewrite Hn.
  - intros self p Hp. unfold FetchMentionChildrenAPI.query.
    rewrite (ChildrenFacts.children_url_spec self p Hp). apply Hk.
  - intros self e Hp.
    unfold FetchMentionChildrenAPI.query, FetchMentionChildrenAPI.url.
    now rewrite Hp.
Qed.

(** ** The further theorems at sample builds *)

Lemma mentions_url_needs_identifiers_witness :
  FetchAllMentionsAPI.url
    (mentions_self "" "B" (VStr "20") VNone VNone VNone VNone)
  = Raise KeyError.
Proof.
  exact (mentions_url_needs_identifiers
           (mentions_self "" "B" (VStr "20") VNone VNone VNone VNone) 20
           eq_refl (or_introl eq_refl)).
Defined.

Lemma mentions_params_has_no_empty_value_witness :
  exists p,
    FetchAllMentionsAPI.params
      (mentions_self "A" "B" (VStr "0") VNone VNone VNone (VStr "web"))
    = Ok p
    /\ NoDup (keys p)
    /\ forall k v, In (k, v) p -> is_empty_str v = false.
Proof.
  eexists. split; [reflexivity|].
  exact (mentions_params_has_no_empty_value
           (mentions_self "A" "B" (VStr "0") VNone VNone VNone (VStr "web"))
           _ eq_refl).
Defined.

Lemma mentions_params_key_order_witness :
  exists p,
    FetchAllMentionsAPI.params
      (mentions_self "A" "B" (VStr "20") (VStr "42") VNone VNone (VStr "web"))
    = Ok p
    /\ subseq (keys p) mentions_key_order = true.
Proof.
  eexists. split; [reflexivity|].
  exact (proj1 (mentions_params_key_order
                  (mentions_self "A" "B" (VStr "20") (VStr "42") VNone VNone
                     (VStr "web"))
                  _ eq_refl)).
Defined.

Lemma mentions_url_is_path_then_fields_witness :
  FetchAllMentionsAPI.url
    (mentions_self "A" "B" (VStr "20") (VStr "42") VNone VNone (VStr "web"))
  = Ok "https://api.mention.net/api/accounts/A/alerts/B/mentions?&since_id=42&limit=20&source=web".
Proof.
  exact (proj1 (mentions_url_is_path_then_fields
                  (mentions_self "A" "B" (VStr "20") (VStr "42") VNone VNone
                     (VStr "web"))
                  _ eq_refl ltac:(discriminate) ltac:(discriminate))).
Defined.

Lemma before_date_carries_not_before_date_witness :
  exists p,
    FetchAllMentionsAPI.params
      (mentions_self "A" "B" (VStr "20") VNone
         (VStr "2018-11-25T12:00:00.000000+00:00") VNone VNone)
    = Ok p
    /\ dict_get "not_before_date" p = Some VNone.
Proof.
  destruct (before_date_carries_not_before_date
              (mentions_self "A" "B" (VStr "20") VNone
                 (VStr "2018-11-25T12:00:00.000000+00:00") VNone VNone)
              20 eq_refl eq_refl eq_refl)
    as (p & Hp & _ & _ & _ & Hnone).
  exists p. split; [exact Hp|]. exact (proj1 (Hnone eq_refl)).
Defined.

Lemma mentions_fields_pass_through_witness :
  exists p,
    FetchAllMentionsAPI.params
      (mentions_self "A" "B" (VStr "20") VNone VNone VNone (VStr "teletext"))
    = Ok p
    /\ dict_get "source" p = Some (VStr "teletext").
Proof.
  destruct (mentions_fields_pass_through
              (mentions_self "A" "B" (VStr "20") VNone VNone VNone
                 (VStr "teletext"))
              20 eq_refl)
    as (p & Hp & Hsrc & _).
  exists p. split; [exact Hp|]. exact (Hsrc eq_refl).
Defined.

Lemma children_url_repeats_mention_id_witness :
  FetchMentionChildrenAPI.url (children_self "" "" "M" VNone VNone)
  = Ok "https://api.mention.net/api/accounts//alerts//mentions/M/children?&mention_id=M".
Proof.
  exact (proj1 (children_url_repeats_mention_id
                  (children_self "" "" "M" VNone VNone) _ eq_refl)).
Defined.

Lemma curate_read_overrides_tone_witness :
  exists self d,
    CurateAMentionAPI.__init__ "T" "A" "B" "M" None None (Some "positive")
      None None (Some "negative") = Ok self
    /\ CurateAMentionAPI.data_dict self = Ok d
    /\ dict_get "tone" d = Some (jstr "positive").
Proof.
  destruct (proj1 (curate_read_overrides_tone "T" "A" "B" "M" None None
                     "positive" None None (Some "negative"))
              "positive" eq_refl ltac:(discriminate))
    as (self & d & Hinit & _ & _ & Hd & _ & Htone).
  exists self, d. repeat split; assumption.
Defined.
